(** * Page turner firmware: a shallow embedding of the two sketches

    The repository holds two Arduino sketches for the M5StickC Plus 2
    (an ESP32 board): [page-turner.ino] (module [PageTurner]) and a
    second variant with a magic-guarded configuration and two fixed
    page-turn buttons (module [Part000]).

    Conventions of the embedding
    - [int] and [long] are 32-bit two's complement, [unsigned long] is
      32-bit, [uint16_t] is 16-bit; every value is a [Z] and the
      conversions are written out ([to_int], [to_ulong], [to_uint16]).
    - a [char] array of the configuration record is a [list ascii] of the
      array's size; an Arduino [String] is a [string].
    - global variables are the fields of a [State] record that every
      function takes and returns; calls into the board-support library
      (display, speaker, HTTP client, web server, power) are appended to
      the [trace] field, in program order.
    - what a function reads from the outside ([millis()], [WiFi.status()],
      button flags, the pending web request) is an argument.
    - [int] products that overflow wrap around, as the compiled code
      does. *)

From Stdlib Require Import ZArith List String Ascii Bool Lia.
Import ListNotations.

Open Scope string_scope.
Open Scope Z_scope.

(* ================================================================== *)
(** * The parts of the Arduino core the sketches call *)

Module Arduino.

(** ** Machine integers *)

Definition INT_MIN : Z := -2147483648.
Definition INT_MAX : Z := 2147483647.

(** Conversion to [int] / [long]: the low 32 bits, read as signed. *)
Definition to_int (z : Z) : Z := (z + 2147483648) mod 4294967296 - 2147483648.

(** Conversion to [unsigned long]. *)
Definition to_ulong (z : Z) : Z := z mod 4294967296.

(** Conversion to [uint16_t]. *)
Definition to_uint16 (z : Z) : Z := z mod 65536.

(** [a - b] on [unsigned long]. *)
Definition usub (a b : Z) : Z := to_ulong (a - b).

(** [a * b] on [int]. *)
Definition imul (a b : Z) : Z := to_int (a * b).

(** [a - b] on [int]. *)
Definition isub (a b : Z) : Z := to_int (a - b).

Definition is_int (z : Z) : Prop := INT_MIN <= z <= INT_MAX.
Definition is_ulong (z : Z) : Prop := 0 <= z < 4294967296.

(** ** Characters and C strings *)

Definition NUL : ascii := Ascii.zero.

Definition is_NUL (c : ascii) : bool := Ascii.eqb c NUL.

Definition isspace (c : ascii) : bool :=
  let n := nat_of_ascii c in
  Nat.eqb n 32 || (Nat.leb 9 n && Nat.leb n 13).

Definition isdigit (c : ascii) : bool :=
  let n := nat_of_ascii c in
  Nat.leb 48 n && Nat.leb n 57.

Definition digit_val (c : ascii) : Z := Z.of_nat (nat_of_ascii c) - 48.

Definition digit_char (d : Z) : ascii := ascii_of_nat (48 + Z.to_nat d).

(** [strncpy(dst, src, n)] with [n = sizeof(dst)]: the new contents of
    [dst].  At most [n] characters of [src] are copied, the copy stops
    at the terminator of [src], and the rest of [dst] is filled with
    NUL.  When [src] has [n] or more characters no NUL is written. *)
Fixpoint strncpy (src : string) (n : nat) : list ascii :=
  match n with
  | O => []
  | S k =>
      match src with
      | EmptyString => NUL :: strncpy EmptyString k
      | String c rest =>
          if is_NUL c then NUL :: strncpy EmptyString k
          else c :: strncpy rest k
      end
  end.

(** The C string held in a [char] array: the characters before the first
    NUL, [None] when the array holds no NUL. *)
Fixpoint cstr (arr : list ascii) : option string :=
  match arr with
  | [] => None
  | c :: rest =>
      if is_NUL c then Some EmptyString
      else match cstr rest with
           | Some s => Some (String c s)
           | None => None
           end
  end.

(** [String(arr)] for a [char] array member of a struct.  On an array
    with no NUL the constructor reads on into the bytes that follow the
    array; the model stops at the end of the array, and every statement
    that depends on the text of such a field assumes [cstr] of it. *)
Fixpoint String_of_chars (arr : list ascii) : string :=
  match arr with
  | [] => EmptyString
  | c :: rest => if is_NUL c then EmptyString else String c (String_of_chars rest)
  end.

(** [strcmp(arr, lit) == 0] for a string literal [lit]: the comparison
    walks both strings and stops at the first difference or at the
    terminator of [lit], so it stays inside [arr] whenever [arr] is
    longer than [lit]. *)
Fixpoint strcmp_eq (arr : list ascii) (lit : string) : bool :=
  match arr, lit with
  | c :: _, EmptyString => is_NUL c
  | c :: rest, String l lit' => Ascii.eqb c l && strcmp_eq rest lit'
  | [], _ => false
  end.

(** ** [String(int)]: decimal digits, a leading [-] for negatives *)

Fixpoint utoa (fuel : nat) (n : Z) (acc : string) : string :=
  match fuel with
  | O => acc
  | S f =>
      let acc' := String (digit_char (n mod 10)) acc in
      if n <? 10 then acc' else utoa f (n / 10) acc'
  end.

(** An [int] has at most ten decimal digits. *)
Definition String_of_int (z : Z) : string :=
  if z <? 0 then String "-" (utoa 10 (- z) EmptyString)
  else utoa 10 z EmptyString.

(** ** [String::toInt()]: [atol] of the buffer

    Leading white space is skipped, one optional sign is read, then the
    longest run of decimal digits; with no digit the result is 0.  A
    value outside [long] saturates, as [strtol] does. *)

Fixpoint skip_space (s : string) : string :=
  match s with
  | String c rest => if isspace c then skip_space rest else s
  | EmptyString => s
  end.

Fixpoint parse_digits (s : string) (acc : Z) : Z :=
  match s with
  | String c rest =>
      if isdigit c then parse_digits rest (acc * 10 + digit_val c) else acc
  | EmptyString => acc
  end.

Definition saturate (z : Z) : Z :=
  if z <? INT_MIN then INT_MIN else if INT_MAX <? z then INT_MAX else z.

Definition toInt (s : string) : Z :=
  match skip_space s with
  | String "-" rest => saturate (- parse_digits rest 0)
  | String "+" rest => saturate (parse_digits rest 0)
  | s' => saturate (parse_digits s' 0)
  end.

(** ** [WebServer]: the arguments of the request being served *)

Definition Form := list (string * string).

(** [server.arg(name)]: the value of the first argument called [name],
    the empty [String] when there is none. *)
Fixpoint arg (f : Form) (name : string) : string :=
  match f with
  | [] => EmptyString
  | (k, v) :: rest => if String.eqb k name then v else arg rest name
  end.

(** [server.hasArg(name)]. *)
Fixpoint hasArg (f : Form) (name : string) : bool :=
  match f with
  | [] => false
  | (k, _) :: rest => String.eqb k name || hasArg rest name
  end.

(** [WiFi.status()]: the sketches only compare it with [WL_CONNECTED]. *)
Inductive wl_status : Type :=
| WL_CONNECTED
| WL_DISCONNECTED
| WL_IDLE_STATUS
| WL_CONNECT_FAILED.

Definition is_connected (w : wl_status) : bool :=
  match w with WL_CONNECTED => true | _ => false end.

End Arduino.

Import Arduino.

Arguments to_int : simpl never.
Arguments to_ulong : simpl never.
Arguments to_uint16 : simpl never.
Arguments usub : simpl never.
Arguments imul : simpl never.
Arguments isub : simpl never.
Arguments String_of_int : simpl never.
Arguments toInt : simpl never.


(* ================================================================== *)
(** * page-turner.ino *)

Module PageTurner.

(** ** Macros and constants *)

Definition BEEP_SHUTDOWN_FREQ : Z := 4000.
Definition BEEP_SHUTDOWN_DURATION : Z := 100.
Definition BEEP_PRESSED_FREQ : Z := 8000.
Definition BEEP_PRESSED_DURATION : Z := 20.
Definition DEVICE_SSID : string := "M5StickC-Plus2".
Definition DEVICE_PASSWORD : string := "12345678".
Definition longPressDuration : Z := 500.
Definition batteryThreshold : Z := 5.

(** ** [struct Config] *)

Record Config : Type := mkConfig {
  ssid : list ascii;                (* char ssid[32] *)
  password : list ascii;            (* char password[32] *)
  koReaderIP : list ascii;          (* char koReaderIP[16] *)
  koReaderPort : Z;                 (* int *)
  aBtnClickAction : Z;              (* int *)
  aBtnHoldAction : Z;               (* int *)
  bBtnClickAction : Z;              (* int *)
  bBtnHoldAction : Z;               (* int *)
  keepScreenOn : bool;
  beepOnPress : bool;
  autoShutdownTime : Z;             (* int, seconds *)
  shutdownCountdownScreen : bool;
  shutdownCountdownBeep : bool;
  countdownTime : Z                 (* int, seconds *)
}.

(** [char a[n] = "lit"]: the literal, the rest of the array zeroed. *)
Definition char_array (lit : string) (n : nat) : list ascii := strncpy lit n.

(** The default member initialisers of [struct Config]. *)
Definition default_config : Config :=
  {| ssid := char_array "defaultSSID" 32;
     password := char_array "defaultPass" 32;
     koReaderIP := char_array "192.168.1.100" 16;
     koReaderPort := 8080;
     aBtnClickAction := 1;
     aBtnHoldAction := 2;
     bBtnClickAction := 0;
     bBtnHoldAction := 3;
     keepScreenOn := true;
     beepOnPress := true;
     autoShutdownTime := 600;
     shutdownCountdownScreen := true;
     shutdownCountdownBeep := false;
     countdownTime := 10 |}.

(** ** Calls into the board-support library, as trace events *)

Inductive Color : Type := BLACK | GREEN | RED.

(** The two pages the web server sends; their HTML is not spelled out. *)
Inductive Page : Type :=
| RootPage (shown : Config)   (* the form of [handleRoot], filled from [shown] *)
| SavedPage                   (* the confirmation of [handleSave] *)
| NotFoundPage.               (* the library's answer to an unregistered path *)

Inductive Event : Type :=
| DisplayFillScreen (c : Color)
| DisplaySetCursor (x y : Z)
| DisplaySetTextSize (n : Z)
| DisplaySetTextColor (c : Color)
| DisplayPrintln (text : string)
| DisplayWakeup
| DisplaySleep
| SpeakerStop
| SpeakerTone (freq duration : Z)
| PowerOff
| HttpBegin (url : string)
| HttpGET
| HttpEnd
| ServerSend (code : Z) (contentType : string) (page : Page)
| Delay (ms : Z)
| Restart.

(** ** Global variables

    [eeprom] is the persisted image of the record, as [EEPROM.get] reads
    it back.  [halted] is set by the two calls that do not return,
    [Power.powerOff()] and [ESP.restart()].  ([lastScreenUpdateTime] is
    declared in the sketch and never used.) *)

Record State : Type := mkState {
  config : Config;
  eeprom : Config;
  lastDisplayedText : string;
  lastActiveTime : Z;               (* unsigned long *)
  pwrBtnpressStartTime : Z;         (* unsigned long *)
  textColor : Color;
  lastRemainingSeconds : Z;         (* int *)
  lastBatteryLevel : Z;             (* int *)
  turnOnScreen : bool;
  delayToTurnOffScreen : bool;
  onCountdown : bool;
  screenStateBeforeCountdown : bool;
  halted : bool;
  trace : list Event
}.

Definition set_config (v : Config) (s : State) : State :=
  mkState v (eeprom s) (lastDisplayedText s) (lastActiveTime s)
    (pwrBtnpressStartTime s) (textColor s) (lastRemainingSeconds s)
    (lastBatteryLevel s) (turnOnScreen s) (delayToTurnOffScreen s)
    (onCountdown s) (screenStateBeforeCountdown s) (halted s) (trace s).

Definition set_eeprom (v : Config) (s : State) : State :=
  mkState (config s) v (lastDisplayedText s) (lastActiveTime s)
    (pwrBtnpressStartTime s) (textColor s) (lastRemainingSeconds s)
    (lastBatteryLevel s) (turnOnScreen s) (delayToTurnOffScreen s)
    (onCountdown s) (screenStateBeforeCountdown s) (halted s) (trace s).

Definition set_lastDisplayedText (v : string) (s : State) : State :=
  mkState (config s) (eeprom s) v (lastActiveTime s)
    (pwrBtnpressStartTime s) (textColor s) (lastRemainingSeconds s)
    (lastBatteryLevel s) (turnOnScreen s) (delayToTurnOffScreen s)
    (onCountdown s) (screenStateBeforeCountdown s) (halted s) (trace s).

Definition set_lastActiveTime (v : Z) (s : State) : State :=
  mkState (config s) (eeprom s) (lastDisplayedText s) v
    (pwrBtnpressStartTime s) (textColor s) (lastRemainingSeconds s)
    (lastBatteryLevel s) (turnOnScreen s) (delayToTurnOffScreen s)
    (onCountdown s) (screenStateBeforeCountdown s) (halted s) (trace s).

Definition set_pwrBtnpressStartTime (v : Z) (s : State) : State :=
  mkState (config s) (eeprom s) (lastDisplayedText s) (lastActiveTime s)
    v (textColor s) (lastRemainingSeconds s)
    (lastBatteryLevel s) (turnOnScreen s) (delayToTurnOffScreen s)
    (onCountdown s) (screenStateBeforeCountdown s) (halted s) (trace s).

Definition set_textColor (v : Color) (s : State) : State :=
  mkState (config s) (eeprom s) (lastDisplayedText s) (lastActiveTime s)
    (pwrBtnpressStartTime s) v (lastRemainingSeconds s)
    (lastBatteryLevel s) (turnOnScreen s) (delayToTurnOffScreen s)
    (onCountdown s) (screenStateBeforeCountdown s) (halted s) (trace s).

Definition set_lastRemainingSeconds (v : Z) (s : State) : State :=
  mkState (config s) (eeprom s) (lastDisplayedText s) (lastActiveTime s)
    (pwrBtnpressStartTime s) (textColor s) v
    (lastBatteryLevel s) (turnOnScreen s) (delayToTurnOffScreen s)
    (onCountdown s) (screenStateBeforeCountdown s) (halted s) (trace s).

Definition set_lastBatteryLevel (v : Z) (s : State) : State :=
  mkState (config s) (eeprom s) (lastDisplayedText s) (lastActiveTime s)
    (pwrBtnpressStartTime s) (textColor s) (lastRemainingSeconds s)
    v (turnOnScreen s) (delayToTurnOffScreen s)
    (onCountdown s) (screenStateBeforeCountdown s) (halted s) (trace s).

Definition set_turnOnScreen (v : bool) (s : State) : State :=
  mkState (config s) (eeprom s) (lastDisplayedText s) (lastActiveTime s)
    (pwrBtnpressStartTime s) (textColor s) (lastRemainingSeconds s)
    (lastBatteryLevel s) v (delayToTurnOffScreen s)
    (onCountdown s) (screenStateBeforeCountdown s) (halted s) (trace s).

Definition set_delayToTurnOffScreen (v : bool) (s : State) : State :=
  mkState (config s) (eeprom s) (lastDisplayedText s) (lastActiveTime s)
    (pwrBtnpressStartTime s) (textColor s) (lastRemainingSeconds s)
    (lastBatteryLevel s) (turnOnScreen s) v
    (onCountdown s) (screenStateBeforeCountdown s) (halted s) (trace s).

Definition set_onCountdown (v : bool) (s : State) : State :=
  mkState (config s) (eeprom s) (lastDisplayedText s) (lastActiveTime s)
    (pwrBtnpressStartTime s) (textColor s) (lastRemainingSeconds s)
    (lastBatteryLevel s) (turnOnScreen s) (delayToTurnOffScreen s)
    v (screenStateBeforeCountdown s) (halted s) (trace s).

Definition set_screenStateBeforeCountdown (v : bool) (s : State) : State :=
  mkState (config s) (eeprom s) (lastDisplayedText s) (lastActiveTime s)
    (pwrBtnpressStartTime s) (textColor s) (lastRemainingSeconds s)
    (lastBatteryLevel s) (turnOnScreen s) (delayToTurnOffScreen s)
    (onCountdown s) v (halted s) (trace s).

Definition set_halted (v : bool) (s : State) : State :=
  mkState (config s) (eeprom s) (lastDisplayedText s) (lastActiveTime s)
    (pwrBtnpressStartTime s) (textColor s) (lastRemainingSeconds s)
    (lastBatteryLevel s) (turnOnScreen s) (delayToTurnOffScreen s)
    (onCountdown s) (screenStateBeforeCountdown s) v (trace s).

(** A library call: the events are appended to the trace. *)
Definition emit (es : list Event) (s : State) : State :=
  mkState (config s) (eeprom s) (lastDisplayedText s) (lastActiveTime s)
    (pwrBtnpressStartTime s) (textColor s) (lastRemainingSeconds s)
    (lastBatteryLevel s) (turnOnScreen s) (delayToTurnOffScreen s)
    (onCountdown s) (screenStateBeforeCountdown s) (halted s)
    (trace s ++ es).

(** ** What one pass of [loop] reads from the outside *)

(** The [WiFi] object: its status and the three texts the info screen
    shows. *)
Record WiFi : Type := mkWiFi {
  status : wl_status;
  SSID : string;
  localIP : string;
  softAPIP : string
}.

(** The flags of an [m5::Button_Class] after [StickCP2.update()]. *)
Record Button_Class : Type := mkButton {
  wasClicked : bool;
  wasHold : bool
}.

(** The request [server.handleClient()] finds pending, if any. *)
Record Request : Type := mkRequest {
  uri : string;
  args : Form
}.

Record Inputs : Type := mkInputs {
  wifi : WiFi;
  batteryLevel : Z;                 (* StickCP2.Power.getBatteryLevel() *)
  BtnA : Button_Class;
  BtnB : Button_Class;
  pwrPinLow : bool;                 (* digitalRead(BTN_PWR_PIN) == LOW *)
  t_screen : Z;                     (* millis() in handleScreenSwitch *)
  t_btnA : Z;                       (* millis() in handleNormalBtnEvent, A *)
  t_btnB : Z;                       (* millis() in handleNormalBtnEvent, B *)
  t_pwr : Z;                        (* millis() in isPWRBtnClicked *)
  t_pwrActive : Z;                  (* millis() in handlePWRBtnEvent *)
  t_shutdown : Z;                   (* millis() in handleAutoShutdown *)
  request : option Request
}.

(** ** Functions *)

Definition nl : string := String (ascii_of_nat 10) EmptyString.

Definition saveConfig (s : State) : State :=
  set_eeprom (config s) s.

Definition loadConfig (s : State) : State :=
  let s1 := set_config (eeprom s) s in
  let s2 :=
    if strcmp_eq (ssid (config s1)) "defaultSSID" then saveConfig s1 else s1 in
  set_delayToTurnOffScreen (negb (keepScreenOn (config s2))) s2.

Definition displayText (text : string) (s : State) : State :=
  if negb (String.eqb text (lastDisplayedText s)) then
    set_lastDisplayedText text
      (emit [DisplayFillScreen BLACK; DisplaySetCursor 0 0;
             DisplaySetTextSize 1; DisplaySetTextColor (textColor s);
             DisplayPrintln text] s)
  else s.

Definition drawInfoScreen (w : WiFi) (currentBatteryLevel : Z) (s : State)
  : State :=
  let info :=
    (if is_connected (status w) then
       "已连接 WiFi: " ++ SSID w ++ nl ++ "设备 IP: " ++ localIP w ++ nl
       ++ "KOReader: " ++ String_of_chars (koReaderIP (config s)) ++ ":"
       ++ String_of_int (koReaderPort (config s))
     else
       "热点名称: " ++ DEVICE_SSID ++ nl ++ "热点密码: " ++ DEVICE_PASSWORD
       ++ nl ++ "IP: " ++ softAPIP w)%string in
  let s1 := set_textColor (if is_connected (status w) then GREEN else RED) s in
  let s2 :=
    if (lastBatteryLevel s1 <? 0)
       || (batteryThreshold <=? Z.abs (isub currentBatteryLevel (lastBatteryLevel s1)))
    then set_lastBatteryLevel currentBatteryLevel s1
    else s1 in
  displayText
    (info ++ nl ++ "电量: " ++ String_of_int (lastBatteryLevel s2) ++ "%")%string
    s2.

Definition sendRequest (st : wl_status) (action : Z) (s : State) : State :=
  if negb (is_connected st) then s
  else
    let c := config s in
    let url : option string :=
      match action with
      | 0 => Some ("http://" ++ String_of_chars (koReaderIP c) ++ ":"
                   ++ String_of_int (koReaderPort c)
                   ++ "/koreader/event/GotoViewRel/-1")%string
      | 1 => Some ("http://" ++ String_of_chars (koReaderIP c) ++ ":"
                   ++ String_of_int (koReaderPort c)
                   ++ "/koreader/event/GotoViewRel/1")%string
      | 2 => Some ("http://" ++ String_of_chars (koReaderIP c) ++ ":"
                   ++ String_of_int (koReaderPort c)
                   ++ "/koreader/event/FullRefresh")%string
      | 3 => Some ("http://" ++ String_of_chars (koReaderIP c) ++ ":"
                   ++ String_of_int (koReaderPort c)
                   ++ "/koreader/event/ToggleFrontlight")%string
      | _ => None
      end in
    match url with
    | Some u => emit [HttpBegin u; HttpGET; HttpEnd] s
    | None => s
    end.

Definition handleRoot (s : State) : State :=
  emit [ServerSend 200 "text/html; charset=UTF-8" (RootPage (config s))] s.

Definition handleSave (f : Form) (s : State) : State :=
  let c :=
    {| ssid := strncpy (arg f "ssid") 32;
       password := strncpy (arg f "password") 32;
       koReaderIP := strncpy (arg f "koReaderIP") 16;
       koReaderPort := to_int (toInt (arg f "koReaderPort"));
       aBtnClickAction := to_int (toInt (arg f "aClick"));
       aBtnHoldAction := to_int (toInt (arg f "aLong"));
       bBtnClickAction := to_int (toInt (arg f "bClick"));
       bBtnHoldAction := to_int (toInt (arg f "bLong"));
       keepScreenOn := hasArg f "keepScreenOn";
       beepOnPress := hasArg f "beepOnPress";
       autoShutdownTime := to_int (toInt (arg f "autoShutdownTime"));
       shutdownCountdownScreen := hasArg f "shutdownCountdownScreen";
       shutdownCountdownBeep := hasArg f "shutdownCountdownBeep";
       countdownTime := to_int (toInt (arg f "countdownTime")) |} in
  let s1 := saveConfig (set_config c s) in
  let s2 :=
    emit [ServerSend 200 "text/html; charset=UTF-8" SavedPage; Delay 1000;
          Restart] s1 in
  set_halted true s2.

Definition handleNormalBtnEvent (st : wl_status) (btn : Button_Class)
  (now : Z) (clickAction holdAction : Z) (s : State) : State :=
  if negb (is_connected st) then s
  else if wasClicked btn || wasHold btn then
    let s1 :=
      if beepOnPress (config s) then
        emit [SpeakerStop; SpeakerTone BEEP_PRESSED_FREQ BEEP_PRESSED_DURATION] s
      else s in
    let s2 := set_lastActiveTime now s1 in
    let s3 := set_lastRemainingSeconds (-1) s2 in
    if wasClicked btn then sendRequest st clickAction s3
    else if wasHold btn then sendRequest st holdAction s3
    else s3
  else s.

Definition isPWRBtnClicked (pinLow : bool) (now : Z) (s : State)
  : bool * State :=
  if pinLow then
    if pwrBtnpressStartTime s =? 0 then
      (false, set_pwrBtnpressStartTime now s)
    else (false, s)
  else
    if negb (pwrBtnpressStartTime s =? 0) then
      let pressDuration := usub now (pwrBtnpressStartTime s) in
      let s1 := set_pwrBtnpressStartTime 0 s in
      if pressDuration <? longPressDuration then (true, s1) else (false, s1)
    else (false, s).

Definition handlePWRBtnEvent (pinLow : bool) (now nowActive : Z) (s : State)
  : State :=
  let (clicked, s0) := isPWRBtnClicked pinLow now s in
  if clicked then
    let s1 := set_lastActiveTime nowActive s0 in
    let s2 := set_lastRemainingSeconds (-1) s1 in
    let s3 :=
      if beepOnPress (config s2) then
        emit [SpeakerStop; SpeakerTone BEEP_PRESSED_FREQ BEEP_PRESSED_DURATION] s2
      else s2 in
    let s4 := set_turnOnScreen (negb (turnOnScreen s3)) s3 in
    set_delayToTurnOffScreen false s4
  else s0.

(** [config.autoShutdownTime - inactiveTime / 1000], stored in an [int]:
    the [int] operand is converted to [unsigned long], the difference is
    taken there, and the result is converted back. *)
Definition remaining (autoShutdown inactiveTime : Z) : Z :=
  to_int (usub (to_ulong autoShutdown) (inactiveTime / 1000)).

Arguments remaining : simpl never.

Definition handleShutdownCountdown (currentTime inactiveTime : Z) (s : State)
  : State :=
  if shutdownCountdownScreen (config s) then
    let s1 :=
      if negb (onCountdown s) then
        set_screenStateBeforeCountdown (turnOnScreen s) s
      else s in
    let s2 := set_turnOnScreen true s1 in
    let s3 := set_onCountdown true s2 in
    let remainingSeconds :=
      remaining (autoShutdownTime (config s3)) inactiveTime in
    if negb (remainingSeconds =? lastRemainingSeconds s3) then
      let s4 :=
        if shutdownCountdownBeep (config s3) then
          emit [SpeakerTone BEEP_SHUTDOWN_FREQ BEEP_SHUTDOWN_DURATION] s3
        else s3 in
      let s5 := set_textColor RED s4 in
      let s6 :=
        displayText
          ("关机倒计时: " ++ String_of_int remainingSeconds ++ " 秒")%string s5 in
      set_lastRemainingSeconds remainingSeconds s6
    else s3
  else s.

(** The two thresholds of [handleAutoShutdown]: an [int] product, converted
    to [unsigned long] for the comparison with [inactiveTime]. *)
Definition shutdown_threshold (c : Config) : Z :=
  to_ulong (imul (autoShutdownTime c) 1000).

Definition countdown_threshold (c : Config) : Z :=
  to_ulong (imul (isub (autoShutdownTime c) (countdownTime c)) 1000).

Definition handleAutoShutdown (now : Z) (s : State) : State :=
  let currentTime := now in
  let inactiveTime := usub currentTime (lastActiveTime s) in
  if shutdown_threshold (config s) <=? inactiveTime then
    set_halted true (emit [PowerOff] s)
  else if countdown_threshold (config s) <=? inactiveTime then
    handleShutdownCountdown currentTime inactiveTime s
  else
    if onCountdown s then
      set_onCountdown false (set_turnOnScreen (screenStateBeforeCountdown s) s)
    else s.

Definition handleScreenSwitch (w : WiFi) (battery : Z) (now : Z) (s : State)
  : State :=
  let s1 :=
    if delayToTurnOffScreen s && negb (keepScreenOn (config s))
       && (5000 <? usub now (lastActiveTime s))
    then set_delayToTurnOffScreen false (set_turnOnScreen false s)
    else s in
  if turnOnScreen s1 then
    let s2 := emit [DisplayWakeup] s1 in
    if negb (onCountdown s2) then drawInfoScreen w battery s2 else s2
  else emit [DisplaySleep] s1.

(** [server.handleClient()] with the two handlers [setupWiFi] registers. *)
Definition handleClient (r : option Request) (s : State) : State :=
  match r with
  | None => s
  | Some q =>
      if String.eqb (uri q) "/" then handleRoot s
      else if String.eqb (uri q) "/save" then handleSave (args q) s
      else emit [ServerSend 404 "text/plain" NotFoundPage] s
  end.

(** One pass of [loop()].  The pass ends where the device powers off. *)
Definition loop (i : Inputs) (s : State) : State :=
  let s1 := handleScreenSwitch (wifi i) (batteryLevel i) (t_screen i) s in
  let s2 :=
    handleNormalBtnEvent (status (wifi i)) (BtnA i) (t_btnA i)
      (aBtnClickAction (config s1)) (aBtnHoldAction (config s1)) s1 in
  let s3 :=
    handleNormalBtnEvent (status (wifi i)) (BtnB i) (t_btnB i)
      (bBtnClickAction (config s2)) (bBtnHoldAction (config s2)) s2 in
  let s4 := handlePWRBtnEvent (pwrPinLow i) (t_pwr i) (t_pwrActive i) s3 in
  let s5 := handleAutoShutdown (t_shutdown i) s4 in
  if halted s5 then s5 else handleClient (request i) s5.

(** The globals as their initialisers leave them, over a storage image. *)
Definition boot (image : Config) : State :=
  {| config := default_config;
     eeprom := image;
     lastDisplayedText := EmptyString;
     lastActiveTime := 0;
     pwrBtnpressStartTime := 0;
     textColor := GREEN;
     lastRemainingSeconds := -1;
     lastBatteryLevel := -1;
     turnOnScreen := true;
     delayToTurnOffScreen := false;
     onCountdown := false;
     screenStateBeforeCountdown := true;
     halted := false;
     trace := [] |}.

(** Storage that was never written: every byte reads 0xFF. *)
Definition erased_image : Config :=
  {| ssid := repeat (ascii_of_nat 255) 32;
     password := repeat (ascii_of_nat 255) 32;
     koReaderIP := repeat (ascii_of_nat 255) 16;
     koReaderPort := -1;
     aBtnClickAction := -1;
     aBtnHoldAction := -1;
     bBtnClickAction := -1;
     bBtnHoldAction := -1;
     keepScreenOn := true;
     beepOnPress := true;
     autoShutdownTime := -1;
     shutdownCountdownScreen := true;
     shutdownCountdownBeep := true;
     countdownTime := -1 |}.

(** ** Vocabulary of the statements about this sketch *)

(** The calls on the HTTP client [http]. *)
Definition is_http (e : Event) : bool :=
  match e with
  | HttpBegin _ | HttpGET | HttpEnd => true
  | _ => false
  end.

(** The state in which a pass of [loop] reaches [handleAutoShutdown]. *)
Definition before_idle_check (i : Inputs) (s : State) : State :=
  let s1 := handleScreenSwitch (wifi i) (batteryLevel i) (t_screen i) s in
  let s2 :=
    handleNormalBtnEvent (status (wifi i)) (BtnA i) (t_btnA i)
      (aBtnClickAction (config s1)) (aBtnHoldAction (config s1)) s1 in
  let s3 :=
    handleNormalBtnEvent (status (wifi i)) (BtnB i) (t_btnB i)
      (bBtnClickAction (config s2)) (bBtnHoldAction (config s2)) s2 in
  handlePWRBtnEvent (pwrPinLow i) (t_pwr i) (t_pwrActive i) s3.

(** The idle time [handleAutoShutdown] measures in that pass. *)
Definition idle_time (i : Inputs) (s : State) : Z :=
  usub (t_shutdown i) (lastActiveTime (before_idle_check i s)).

(** A pass in which the dispatcher registers activity: a click or hold of
    A or B while connected, or a click of the power key. *)
Definition pressed (b : Button_Class) : bool := wasClicked b || wasHold b.

Definition activity (i : Inputs) (s : State) : bool :=
  (is_connected (status (wifi i)) && (pressed (BtnA i) || pressed (BtnB i)))
  || fst (isPWRBtnClicked (pwrPinLow i) (t_pwr i) s).

(** A pass in which [handleAutoShutdown] reads the clock less than
    [bound] milliseconds after each of the three readings that can become
    [lastActiveTime]. *)
Definition pass_within (i : Inputs) (bound : Z) : Prop :=
  usub (t_shutdown i) (t_btnA i) < bound
  /\ usub (t_shutdown i) (t_btnB i) < bound
  /\ usub (t_shutdown i) (t_pwrActive i) < bound.

(** The seven numeric fields of the save form and the member of the
    record each one is stored in. *)
Inductive NumericField : Type :=
| F_koReaderPort | F_aClick | F_aLong | F_bClick | F_bLong
| F_autoShutdownTime | F_countdownTime.

Definition field_name (fld : NumericField) : string :=
  match fld with
  | F_koReaderPort => "koReaderPort"
  | F_aClick => "aClick"
  | F_aLong => "aLong"
  | F_bClick => "bClick"
  | F_bLong => "bLong"
  | F_autoShutdownTime => "autoShutdownTime"
  | F_countdownTime => "countdownTime"
  end.

Definition stored (fld : NumericField) (c : Config) : Z :=
  match fld with
  | F_koReaderPort => koReaderPort c
  | F_aClick => aBtnClickAction c
  | F_aLong => aBtnHoldAction c
  | F_bClick => bBtnClickAction c
  | F_bLong => bBtnHoldAction c
  | F_autoShutdownTime => autoShutdownTime c
  | F_countdownTime => countdownTime c
  end.

(** A network name of 32 characters, one more than the form's
    [maxlength] lets a browser type. *)
Definition ssid_of_32 : string := "ABCDEFGHIJKLMNOPQRSTUVWXYZ012345".

(** What the idle timer and the dispatcher keep between them. *)
Definition timer_view (s : State)
  : Config * Z * Z * Z * bool * bool * bool :=
  (config s, lastActiveTime s, pwrBtnpressStartTime s,
   lastRemainingSeconds s, onCountdown s, screenStateBeforeCountdown s,
   halted s).

(** ** Sample inputs and states *)

Definition home_wifi : WiFi :=
  mkWiFi WL_CONNECTED "home" "192.168.1.50" "0.0.0.0".

Definition no_wifi : WiFi :=
  mkWiFi WL_DISCONNECTED EmptyString "0.0.0.0" "192.168.4.1".

Definition released : Button_Class := mkButton false false.
Definition clicked : Button_Class := mkButton true false.

(** A pass at time [t] in which nothing is pressed and nothing is asked. *)
Definition idle_pass (w : WiFi) (t : Z) : Inputs :=
  mkInputs w 80 released released false t t t t t t None.

(** A pass that starts at time [t], in which button A was clicked, and
    that reaches [handleAutoShutdown] at time [t']. *)
Definition click_A_pass (w : WiFi) (t t' : Z) : Inputs :=
  mkInputs w 80 clicked released false t t t t t t' None.



(** The device running on record [c], last active at time 0, with the
    screen flag [screen]. *)
Definition running (c : Config) (screen : bool) : State :=
  set_turnOnScreen screen (set_config c (boot c)).

(** The device in the countdown phase, the screen having been off when
    the countdown started. *)
Definition counting_down : State :=
  set_onCountdown true
    (set_screenStateBeforeCountdown false (running default_config true)).

(** A countdown as long as the shutdown time, 10 s of 10 s: the
    countdown starts with the idle time. *)
Definition config_countdown_at_once : Config :=
  mkConfig (ssid default_config) (password default_config)
    (koReaderIP default_config) 8080 1 2 0 3 true true 10 true false 10.

(** The device in the countdown phase on that record. *)
Definition counting_down_at_once : State :=
  set_onCountdown true
    (set_screenStateBeforeCountdown false
       (running config_countdown_at_once true)).

(** ** [initDisplay], [setupWiFi] and [setup]

    The calls these make on the display, the radio, the web server and
    the HTTP client at start-up are kept in a log of their own. *)

Inductive SetupCall : Type :=
| pinMode_INPUT (pin : Z)
| StickCP2_begin
| Display_setRotation (r : Z)
| Display_setBrightness (b : Z)
| Display_setTextColor (c : Color)
| Display_setFont_efontCN_16
| WiFi_begin (name passphrase : string)
| delay_ms (ms : Z)
| WiFi_softAP (name passphrase : string)
| server_on (path : string)
| server_begin
| http_setConnectTimeout (ms : Z)
| http_setTimeout (ms : Z).

Definition BTN_PWR_PIN : Z := 35.

Definition initDisplay (s : State) : list SetupCall :=
  [Display_setRotation 1; Display_setBrightness 15;
   Display_setTextColor (textColor s); Display_setFont_efontCN_16].

(** The waiting loop of [setupWiFi]: each element of [polls] is what one
    evaluation of the loop condition reads, [WiFi.status()] and
    [millis()].  The result is the number of times [delay(500)] ran;
    [None] when the readings given run out before the loop ends. *)
Fixpoint wait_connected (start : Z) (polls : list (wl_status * Z))
  : option nat :=
  match polls with
  | [] => None
  | (st, now) :: rest =>
      if negb (is_connected st) && (usub now start <? 10000) then
        match wait_connected start rest with
        | Some n => Some (S n)
        | None => None
        end
      else Some O
  end.

(** [start] is the [millis()] read before the loop, [final] the
    [WiFi.status()] read after it. *)
Definition setupWiFi (start : Z) (polls : list (wl_status * Z))
  (final : wl_status) (s : State) : option (State * list SetupCall) :=
  let s1 := set_textColor RED s in
  let s2 := displayText "正在连接 WiFi..." s1 in
  match wait_connected start polls with
  | None => None
  | Some n =>
      Some (s2,
            ([WiFi_begin (String_of_chars (ssid (config s2)))
                (String_of_chars (password (config s2)))]
             ++ repeat (delay_ms 500) n
             ++ (if negb (is_connected final)
                 then [WiFi_softAP DEVICE_SSID DEVICE_PASSWORD]
                 else [])
             ++ [server_on "/"; server_on "/save"; server_begin])%list)
  end.

(** [setup()] over a storage image; [now] is the [millis()] that becomes
    [lastActiveTime]. *)
Definition setup (image : Config) (start : Z) (polls : list (wl_status * Z))
  (final : wl_status) (now : Z) : option (State * list SetupCall) :=
  let s1 := loadConfig (boot image) in
  match setupWiFi start polls final s1 with
  | None => None
  | Some (s2, calls) =>
      Some (set_lastActiveTime now s2,
            ([pinMode_INPUT BTN_PWR_PIN; StickCP2_begin] ++ initDisplay s1
             ++ calls
             ++ [http_setConnectTimeout 500; http_setTimeout 1])%list)
  end.

(** ** The sketch running: [loop()] called again and again, until the
    device powers off or restarts *)

Fixpoint run (passes : list Inputs) (s : State) : State :=
  match passes with
  | [] => s
  | i :: rest => if halted s then s else run rest (loop i s)
  end.

(** The power key held down: [isPWRBtnClicked] called with the pin low
    at each of the given clock readings. *)
Fixpoint hold_power_key (times : list Z) (s : State) : State :=
  match times with
  | [] => s
  | t :: rest => hold_power_key rest (snd (isPWRBtnClicked true t s))
  end.

(** ** Vocabulary of the further statements *)

(** Clock readings of the waiting loop that respect its [delay(500)]:
    the first is not before [lo], each next one is at least 500 ms after
    the one before, and the clock does not wrap. *)
Fixpoint paced (lo : Z) (polls : list (wl_status * Z)) : Prop :=
  match polls with
  | [] => True
  | (_, t) :: rest => lo <= t < 4294967296 /\ paced (t + 500) rest
  end.

(** A pass that carries no save request. *)
Definition no_save (i : Inputs) : bool :=
  match request i with
  | None => true
  | Some q => negb (String.eqb (uri q) "/save")
  end.

(** The calls on the speaker. *)
Definition is_speaker (e : Event) : bool :=
  match e with
  | SpeakerStop | SpeakerTone _ _ => true
  | _ => false
  end.

(** The three text fields of the save form, the array each is stored in
    and its size. *)
Inductive TextField : Type := F_ssid | F_password | F_koReaderIP.

Definition text_field_name (fld : TextField) : string :=
  match fld with
  | F_ssid => "ssid"
  | F_password => "password"
  | F_koReaderIP => "koReaderIP"
  end.

Definition text_stored (fld : TextField) (c : Config) : list ascii :=
  match fld with
  | F_ssid => ssid c
  | F_password => password c
  | F_koReaderIP => koReaderIP c
  end.

Definition capacity (fld : TextField) : nat :=
  match fld with
  | F_ssid => 32%nat
  | F_password => 32%nat
  | F_koReaderIP => 16%nat
  end.

(** The four check boxes of the save form. *)
Inductive CheckBox : Type :=
| F_keepScreenOn | F_beepOnPress | F_shutdownCountdownScreen
| F_shutdownCountdownBeep.

Definition checkbox_name (fld : CheckBox) : string :=
  match fld with
  | F_keepScreenOn => "keepScreenOn"
  | F_beepOnPress => "beepOnPress"
  | F_shutdownCountdownScreen => "shutdownCountdownScreen"
  | F_shutdownCountdownBeep => "shutdownCountdownBeep"
  end.

Definition checked (fld : CheckBox) (c : Config) : bool :=
  match fld with
  | F_keepScreenOn => keepScreenOn c
  | F_beepOnPress => beepOnPress c
  | F_shutdownCountdownScreen => shutdownCountdownScreen c
  | F_shutdownCountdownBeep => shutdownCountdownBeep c
  end.

(** A record as the data model wants it: a countdown no longer than the
    shutdown time, and a shutdown time whose milliseconds fit an [int]. *)
Definition sane (c : Config) : Prop :=
  0 <= countdownTime c <= autoShutdownTime c
  /\ autoShutdownTime c * 1000 <= INT_MAX.

(** ** Further sample inputs *)

(** Twenty-one readings of the waiting loop, 500 ms apart from [t] on,
    none of them connected. *)
Fixpoint never_connected (n : nat) (t : Z) : list (wl_status * Z) :=
  match n with
  | O => []
  | S k => (WL_DISCONNECTED, t) :: never_connected k (t + 500)
  end.

(** A pass at time [t] with a save request. *)
Definition save_pass (w : WiFi) (t : Z) (f : Form) : Inputs :=
  mkInputs w 80 released released false t t t t t t
    (Some (mkRequest "/save" f)).

(** The defaults with a silent device: no beep on press, no countdown
    beep. *)
Definition config_silent : Config :=
  mkConfig (ssid default_config) (password default_config)
    (koReaderIP default_config) 8080 1 2 0 3 true false 600 true false 10.

(** The defaults with the screen allowed to switch off. *)
Definition config_screen_off : Config :=
  mkConfig (ssid default_config) (password default_config)
    (koReaderIP default_config) 8080 1 2 0 3 false true 600 true false 10.

End PageTurner.

(* ================================================================== *)
(** * The variant with a magic-guarded record (second sketch) *)

Module Part000.

(** ** Default and user configuration, hardware definitions *)

Definition DEFAULT_SSID : string := "M5StickC-Plus2".
Definition DEFAULT_PASS : string := "12345678".
Definition DEFAULT_IP : string := "192.168.2.99".
Definition DEFAULT_PORT : Z := 8080.

Definition ENABLE_BUTTON_BEEP : bool := true.
Definition ENABLE_COUNTDOWN_BEEP : bool := false.
Definition ENABLE_SCREEN_PROMPT : bool := true.
Definition SHUTDOWN_TIMEOUT : Z := 600000.
Definition COUNTDOWN_START : Z := SHUTDOWN_TIMEOUT - 10000.
Definition BEEP_FREQ : Z := 4000.
Definition BEEP_DURATION : Z := 100.
Definition BUTTON_FREQ : Z := 8000.
Definition BUTTON_DURATION : Z := 20.
Definition CONFIG_MAGIC : Z := 43605.        (* 0xAA55 *)

(** [Display.width()] and [Display.height()] of the 135x240 panel after
    [setRotation(1)]. *)
Definition DISPLAY_WIDTH : Z := 240.
Definition DISPLAY_HEIGHT : Z := 135.

(** ** [struct Config] *)

Record Config : Type := mkConfig {
  magic : Z;                        (* uint16_t *)
  ssid : list ascii;                (* char ssid[32] *)
  password : list ascii;            (* char password[64] *)
  targetIP : list ascii;            (* char targetIP[16] *)
  targetPort : Z                    (* uint16_t *)
}.

(** ** Calls into the board-support library, as trace events *)

Inductive Color : Type := GREEN | RED.
Inductive Datum : Type := top_left | middle_center.

Inductive Event : Type :=
| DisplayClear
| DisplaySetTextColor (c : Color)
| DisplaySetTextDatum (d : Datum)
| DisplayDrawString (text : string) (x y : Z)
| DisplayWakeup
| DisplaySleep
| SpeakerStop
| SpeakerTone (freq duration : Z)
| PowerOff
| HttpBegin (url : string)
| HttpGET
| HttpEnd
| SerialPrintf (format : string) (argument : string)
| SerialPrintfError (format : string) (httpCode : Z)
| ServerSend (code : Z) (contentType : string) (body : string)
| Delay (ms : Z)
| Restart.

(** ** Global variables

    [lastPress] is the function-local static of [isButtonCPressed]. *)

Record State : Type := mkState {
  deviceConfig : Config;
  eeprom : Config;
  screenEnabled : bool;
  isAPMode : bool;
  lastActivityTime : Z;             (* unsigned long *)
  lastBeepTime : Z;                 (* unsigned long *)
  lastScreenUpdate : Z;             (* unsigned long *)
  lastRemainingSeconds : Z;         (* int *)
  lastSSID : string;
  lastIP : string;
  lastTarget : string;
  lastPress : Z;                    (* unsigned long *)
  halted : bool;
  trace : list Event
}.

Definition set_deviceConfig (v : Config) (s : State) : State :=
  mkState v (eeprom s) (screenEnabled s) (isAPMode s) (lastActivityTime s)
    (lastBeepTime s) (lastScreenUpdate s) (lastRemainingSeconds s)
    (lastSSID s) (lastIP s) (lastTarget s) (lastPress s) (halted s) (trace s).

Definition set_eeprom (v : Config) (s : State) : State :=
  mkState (deviceConfig s) v (screenEnabled s) (isAPMode s)
    (lastActivityTime s) (lastBeepTime s) (lastScreenUpdate s)
    (lastRemainingSeconds s) (lastSSID s) (lastIP s) (lastTarget s)
    (lastPress s) (halted s) (trace s).

Definition set_screenEnabled (v : bool) (s : State) : State :=
  mkState (deviceConfig s) (eeprom s) v (isAPMode s)
    (lastActivityTime s) (lastBeepTime s) (lastScreenUpdate s)
    (lastRemainingSeconds s) (lastSSID s) (lastIP s) (lastTarget s)
    (lastPress s) (halted s) (trace s).

Definition set_lastActivityTime (v : Z) (s : State) : State :=
  mkState (deviceConfig s) (eeprom s) (screenEnabled s) (isAPMode s)
    v (lastBeepTime s) (lastScreenUpdate s)
    (lastRemainingSeconds s) (lastSSID s) (lastIP s) (lastTarget s)
    (lastPress s) (halted s) (trace s).

Definition set_lastBeepTime (v : Z) (s : State) : State :=
  mkState (deviceConfig s) (eeprom s) (screenEnabled s) (isAPMode s)
    (lastActivityTime s) v (lastScreenUpdate s)
    (lastRemainingSeconds s) (lastSSID s) (lastIP s) (lastTarget s)
    (lastPress s) (halted s) (trace s).

Definition set_lastScreenUpdate (v : Z) (s : State) : State :=
  mkState (deviceConfig s) (eeprom s) (screenEnabled s) (isAPMode s)
    (lastActivityTime s) (lastBeepTime s) v
    (lastRemainingSeconds s) (lastSSID s) (lastIP s) (lastTarget s)
    (lastPress s) (halted s) (trace s).

Definition set_lastRemainingSeconds (v : Z) (s : State) : State :=
  mkState (deviceConfig s) (eeprom s) (screenEnabled s) (isAPMode s)
    (lastActivityTime s) (lastBeepTime s) (lastScreenUpdate s)
    v (lastSSID s) (lastIP s) (lastTarget s)
    (lastPress s) (halted s) (trace s).

Definition set_lastStatus (vSSID vIP vTarget : string) (s : State) : State :=
  mkState (deviceConfig s) (eeprom s) (screenEnabled s) (isAPMode s)
    (lastActivityTime s) (lastBeepTime s) (lastScreenUpdate s)
    (lastRemainingSeconds s) vSSID vIP vTarget
    (lastPress s) (halted s) (trace s).

Definition set_lastPress (v : Z) (s : State) : State :=
  mkState (deviceConfig s) (eeprom s) (screenEnabled s) (isAPMode s)
    (lastActivityTime s) (lastBeepTime s) (lastScreenUpdate s)
    (lastRemainingSeconds s) (lastSSID s) (lastIP s) (lastTarget s)
    v (halted s) (trace s).

Definition set_halted (v : bool) (s : State) : State :=
  mkState (deviceConfig s) (eeprom s) (screenEnabled s) (isAPMode s)
    (lastActivityTime s) (lastBeepTime s) (lastScreenUpdate s)
    (lastRemainingSeconds s) (lastSSID s) (lastIP s) (lastTarget s)
    (lastPress s) v (trace s).

Definition emit (es : list Event) (s : State) : State :=
  mkState (deviceConfig s) (eeprom s) (screenEnabled s) (isAPMode s)
    (lastActivityTime s) (lastBeepTime s) (lastScreenUpdate s)
    (lastRemainingSeconds s) (lastSSID s) (lastIP s) (lastTarget s)
    (lastPress s) (halted s) (trace s ++ es).

(** ** What one pass of [loop] reads from the outside *)

Record WiFi : Type := mkWiFi {
  status : wl_status;
  localIP : string
}.

Inductive Method : Type := HTTP_GET | HTTP_POST.

Record Request : Type := mkRequest {
  method : Method;
  uri : string;
  args : Form
}.

Record Inputs : Type := mkInputs {
  wifi : WiFi;
  BtnA_wasPressed : bool;
  BtnB_wasPressed : bool;
  pinCLow : bool;                   (* digitalRead(BUTTON_C_PIN) == LOW *)
  t_loop : Z;                       (* millis() at the top of loop *)
  t_pressC : Z;                     (* millis() in the test of isButtonCPressed *)
  t_pressC' : Z;                    (* millis() stored in lastPress *)
  httpCodeA : Z;                    (* result of http.GET() for button A *)
  httpCodeB : Z;                    (* result of http.GET() for button B *)
  request : option Request
}.

(** ** Functions *)

Definition nl : string := String (ascii_of_nat 10) EmptyString.

Definition isButtonCPressed (pinLow : bool) (now now' : Z) (s : State)
  : bool * State :=
  if pinLow then
    if 500 <? usub now (lastPress s) then (true, set_lastPress now' s)
    else (false, s)
  else (false, s).

Definition drawStatusScreen (w : WiFi) (forceUpdate : bool) (s : State)
  : State :=
  let c := deviceConfig s in
  let currentSSID :=
    if is_connected (status w) then String_of_chars (ssid c) else EmptyString in
  let currentIP := localIP w in
  let currentTarget :=
    (String_of_chars (targetIP c) ++ ":" ++ String_of_int (targetPort c))%string in
  if negb forceUpdate && String.eqb currentSSID (lastSSID s)
     && String.eqb currentIP (lastIP s)
     && String.eqb currentTarget (lastTarget s)
  then s
  else
    let s1 := set_lastStatus currentSSID currentIP currentTarget s in
    let s2 := emit [DisplayClear] s1 in
    if is_connected (status w) then
      emit [DisplaySetTextColor GREEN;
            DisplayDrawString ("已连接 WIFI: " ++ String_of_chars (ssid c)) 0 10;
            DisplayDrawString ("设备 IP: " ++ localIP w) 0 30;
            DisplayDrawString
              ("koreader: " ++ String_of_chars (targetIP c) ++ ":"
               ++ String_of_int (targetPort c)) 0 50] s2
    else
      emit [DisplaySetTextColor RED;
            DisplayDrawString "连接指定 WIFI 失败" 0 10;
            DisplayDrawString "请连接以下热点重新配网" 0 30;
            DisplaySetTextColor GREEN;
            DisplayDrawString ("名称: " ++ DEFAULT_SSID) 0 50;
            DisplayDrawString ("密码: " ++ DEFAULT_PASS) 0 70] s2.

Definition toggleScreen (w : WiFi) (s : State) : State :=
  let s1 := set_screenEnabled (negb (screenEnabled s)) s in
  if screenEnabled s1 then drawStatusScreen w true (emit [DisplayWakeup] s1)
  else emit [DisplayClear; DisplaySleep] s1.

Definition with_magic (m : Z) (c : Config) : Config :=
  mkConfig m (ssid c) (password c) (targetIP c) (targetPort c).

Definition saveConfig (s : State) : State :=
  let s1 := set_deviceConfig (with_magic CONFIG_MAGIC (deviceConfig s)) s in
  set_eeprom (deviceConfig s1) s1.

(** The record [loadConfig] builds when the magic does not match:
    [memset] to zero, the three defaults copied in, the default port. *)
Definition initial_config : Config :=
  {| magic := 0;
     ssid := strncpy DEFAULT_SSID 32;
     password := strncpy DEFAULT_PASS 64;
     targetIP := strncpy DEFAULT_IP 16;
     targetPort := DEFAULT_PORT |}.

Definition loadConfig (s : State) : State :=
  let s1 := set_deviceConfig (eeprom s) s in
  if negb (magic (deviceConfig s1) =? CONFIG_MAGIC) then
    saveConfig (set_deviceConfig initial_config s1)
  else s1.

(** The body shared, letter for letter, by the two POST handlers:
    [/config] of [startAPMode] and [/update] of [connectWiFi]. *)
Definition store_form (f : Form) (s : State) : State :=
  let c :=
    {| magic := magic (deviceConfig s);
       ssid := strncpy (arg f "ssid") 32;
       password := strncpy (arg f "pass") 64;
       targetIP := strncpy (arg f "ip") 16;
       targetPort := to_uint16 (toInt (arg f "port")) |} in
  saveConfig (set_deviceConfig c s).

(** [startAPMode]: the handler of [GET /]. *)
Definition ap_root (s : State) : State :=
  let c := deviceConfig s in
  emit [ServerSend 200 "text/html"
          ("<form action='/config' method='POST'>"
           ++ "WiFi 名称: <input type='text' name='ssid' value='"
           ++ String_of_chars (ssid c) ++ "'><br>"
           ++ "WiFi 密码: <input type='password' name='pass' value='"
           ++ String_of_chars (password c) ++ "'><br>"
           ++ "koreader IP: <input type='text' name='ip' value='"
           ++ String_of_chars (targetIP c) ++ "'><br>"
           ++ "koreader 端口: <input type='number' name='port' value='"
           ++ String_of_int (targetPort c) ++ "'><br>"
           ++ "<input type='submit' value='保存'>"
           ++ "</form>")] s.

(** [startAPMode]: the handler of [POST /config]. *)
Definition ap_config (f : Form) (s : State) : State :=
  let s1 := store_form f s in
  let s2 :=
    emit [ServerSend 200 "text/plain" "配置已保存，正在重启..."; Delay 1000;
          Restart] s1 in
  set_halted true s2.

(** [connectWiFi]: the handler of [GET /]. *)
Definition sta_root (s : State) : State :=
  emit [ServerSend 200 "text/html"
          ("<h1>设备控制面板</h1>"
           ++ "<p><a href='/config'>配置WiFi</a></p>")] s.

(** [connectWiFi]: the handler of [GET /config]. *)
Definition sta_config (s : State) : State :=
  let c := deviceConfig s in
  emit [ServerSend 200 "text/html"
          ("<form action='/update' method='POST'>"
           ++ "新 WIFI 名称: <input type='text' name='ssid' value='"
           ++ String_of_chars (ssid c) ++ "'><br>"
           ++ "新 WIFI 密码: <input type='password' name='pass' value='"
           ++ String_of_chars (password c) ++ "'><br>"
           ++ "目标IP: <input type='text' name='ip' value='"
           ++ String_of_chars (targetIP c) ++ "'><br>"
           ++ "目标端口: <input type='number' name='port' value='"
           ++ String_of_int (targetPort c) ++ "'><br>"
           ++ "<input type='submit' value='更新'>"
           ++ "</form>")] s.

(** [connectWiFi]: the handler of [POST /update]. *)
Definition sta_update (f : Form) (s : State) : State :=
  let s1 := store_form f s in
  let s2 :=
    emit [ServerSend 200 "text/plain" "配置已更新，重启中..."; Delay 1000;
          Restart] s1 in
  set_halted true s2.

(** [server.handleClient()]: the handlers of the mode the device is in;
    the library answers 404 to anything else. *)
Definition handleClient (r : option Request) (s : State) : State :=
  match r with
  | None => s
  | Some q =>
      let not_found :=
        emit [ServerSend 404 "text/plain" ("Not found: " ++ uri q)] s in
      if isAPMode s then
        match method q with
        | HTTP_GET => if String.eqb (uri q) "/" then ap_root s else not_found
        | HTTP_POST =>
            if String.eqb (uri q) "/config" then ap_config (args q) s
            else not_found
        end
      else
        match method q with
        | HTTP_GET =>
            if String.eqb (uri q) "/" then sta_root s
            else if String.eqb (uri q) "/config" then sta_config s
            else not_found
        | HTTP_POST =>
            if String.eqb (uri q) "/update" then sta_update (args q) s
            else not_found
        end
  end.

(** [10 - ((inactiveTime - COUNTDOWN_START) / 1000)], stored in an [int];
    the arithmetic is on [unsigned long]. *)
Definition remaining (inactiveTime : Z) : Z :=
  to_int (usub 10 (usub inactiveTime COUNTDOWN_START / 1000)).

Arguments remaining : simpl never.

Definition handleShutdownCountdown (currentTime inactiveTime : Z) (s : State)
  : State :=
  let s3 :=
    if ENABLE_SCREEN_PROMPT then
      let s1 := emit [DisplayWakeup] s in
      let remainingSeconds := remaining inactiveTime in
      if negb (remainingSeconds =? lastRemainingSeconds s1) then
        let s2 :=
          emit [DisplayClear; DisplaySetTextDatum middle_center;
                DisplayDrawString
                  (String_of_int remainingSeconds ++ " 秒后关机")
                  (DISPLAY_WIDTH / 2) (DISPLAY_HEIGHT / 2)] s1 in
        emit [DisplaySetTextDatum top_left]
          (set_lastRemainingSeconds remainingSeconds s2)
      else s1
    else s in
  if ENABLE_COUNTDOWN_BEEP && (1000 <=? usub currentTime (lastBeepTime s3)) then
    set_lastBeepTime currentTime (emit [SpeakerTone BEEP_FREQ BEEP_DURATION] s3)
  else s3.

Definition sendTurnPageRequest (turnPageSize : Z) (httpCode : Z) (s : State)
  : State :=
  let c := deviceConfig s in
  let url :=
    ("http://" ++ String_of_chars (targetIP c) ++ ":"
     ++ String_of_int (targetPort c) ++ "/koreader/event/GotoViewRel/"
     ++ String_of_int turnPageSize)%string in
  let s1 :=
    emit [SerialPrintf ("send GET request to: %s" ++ nl) url;
          HttpBegin url; HttpGET] s in
  let s2 :=
    if 0 <? httpCode then
      emit [SerialPrintf ("GET request sent to %s" ++ nl) url] s1
    else
      emit [SerialPrintfError ("Error sending GET request: %s" ++ nl) httpCode]
        s1 in
  emit [HttpEnd] s2.

(** One pass of [loop()].  The pass ends where the device powers off. *)
Definition loop (i : Inputs) (s : State) : State :=
  let currentTime := t_loop i in
  let inactiveTime := usub currentTime (lastActivityTime s) in
  if SHUTDOWN_TIMEOUT <=? inactiveTime then
    set_halted true (emit [PowerOff] s)
  else
    let s1 :=
      if COUNTDOWN_START <=? inactiveTime then
        handleShutdownCountdown currentTime inactiveTime s
      else s in
    let s2 :=
      if BtnA_wasPressed i || BtnB_wasPressed i then
        let a1 := set_lastActivityTime currentTime s1 in
        let a2 := set_lastRemainingSeconds (-1) a1 in
        let a3 :=
          if ENABLE_BUTTON_BEEP then
            emit [SpeakerStop; SpeakerTone BUTTON_FREQ BUTTON_DURATION] a2
          else a2 in
        let a4 :=
          if BtnA_wasPressed i then sendTurnPageRequest 1 (httpCodeA i) a3
          else a3 in
        let a5 :=
          if BtnB_wasPressed i then sendTurnPageRequest (-1) (httpCodeB i) a4
          else a4 in
        if negb (screenEnabled a5) then emit [DisplayClear; DisplaySleep] a5
        else a5
      else s1 in
    let s3 :=
      let (pressed, b0) :=
        isButtonCPressed (pinCLow i) (t_pressC i) (t_pressC' i) s2 in
      if pressed then set_lastActivityTime currentTime (toggleScreen (wifi i) b0)
      else b0 in
    let s4 :=
      if screenEnabled s3 && (1000 <=? usub currentTime (lastScreenUpdate s3)) then
        set_lastScreenUpdate currentTime (drawStatusScreen (wifi i) false s3)
      else s3 in
    handleClient (request i) s4.

(** The globals as their initialisers leave them, over a storage image. *)
Definition boot (image : Config) : State :=
  {| deviceConfig := mkConfig 0 (repeat NUL 32) (repeat NUL 64) (repeat NUL 16) 0;
     eeprom := image;
     screenEnabled := false;
     isAPMode := false;
     lastActivityTime := 0;
     lastBeepTime := 0;
     lastScreenUpdate := 0;
     lastRemainingSeconds := -1;
     lastSSID := EmptyString;
     lastIP := EmptyString;
     lastTarget := EmptyString;
     lastPress := 0;
     halted := false;
     trace := [] |}.

(** Storage that was never written: every byte reads 0xFF. *)
Definition erased_image : Config :=
  {| magic := 65535;
     ssid := repeat (ascii_of_nat 255) 32;
     password := repeat (ascii_of_nat 255) 64;
     targetIP := repeat (ascii_of_nat 255) 16;
     targetPort := 65535 |}.

(** ** Vocabulary of the statements about this sketch *)

(** The calls on the HTTP client [http]. *)
Definition is_http (e : Event) : bool :=
  match e with
  | HttpBegin _ | HttpGET | HttpEnd => true
  | _ => false
  end.

(** ** Sample inputs and states *)

Definition no_wifi : WiFi := mkWiFi WL_DISCONNECTED "0.0.0.0".

(** A pass at time [t] in which button A was pressed; [http.GET()]
    fails with -1 (connection refused). *)
Definition press_A_pass (w : WiFi) (t : Z) : Inputs :=
  mkInputs w true false false t t t (-1) (-1) None.

(** The device after its first boot over storage that was never
    written. *)
Definition first_boot : State := loadConfig (boot erased_image).

(** ** Vocabulary of the further statements *)

(** The one route that saves in each mode: [POST /config] on the access
    point, [POST /update] on the home network. *)
Definition is_save_route (ap : bool) (q : Request) : bool :=
  match method q with
  | HTTP_POST => String.eqb (uri q) (if ap then "/config" else "/update")
  | HTTP_GET => false
  end.

Definition saves (ap : bool) (r : option Request) : bool :=
  match r with
  | Some q => is_save_route ap q
  | None => false
  end.


(** A pass at time [t] in which nothing is pressed and nothing is asked. *)
Definition idle_pass (w : WiFi) (t : Z) : Inputs :=
  mkInputs w false false false t t t (-1) (-1) None.


Definition home_wifi : WiFi := mkWiFi WL_CONNECTED "192.168.2.50".

(** ** [initDisplay], [startAPMode], [connectWiFi] and [setup]

    The calls these make on the radio, the serial port, the web server
    and the storage driver, and the display settings of [initDisplay],
    are kept in a log of their own; what they draw goes to the trace. *)

Inductive SetupCall : Type :=
| pinMode_INPUT_PULLUP (pin : Z)
| StickCP2_begin
| EEPROM_begin (size : Z)
| Display_setBrightness (b : Z)
| Display_setRotation (r : Z)
| Display_setTextColor (c : Color)
| Display_setTextDatum (d : Datum)
| Display_setTextFont_efontCN_16
| Display_setTextSize (n : Z)
| delay_ms (ms : Z)
| WiFi_begin (name passphrase : string)
| WiFi_disconnect
| WiFi_mode_AP
| WiFi_softAP (name passphrase : string)
| Serial_print (text : string)
| Serial_println (text : string)
| MDNS_begin (name : string)
| server_on (m : Method) (path : string)
| server_begin.

Definition BUTTON_C_PIN : Z := 35.
Definition EEPROM_SIZE : Z := 128.
Definition SCREEN_TIMEOUT : Z := 3000.

Definition set_isAPMode (v : bool) (s : State) : State :=
  mkState (deviceConfig s) (eeprom s) (screenEnabled s) v
    (lastActivityTime s) (lastBeepTime s) (lastScreenUpdate s)
    (lastRemainingSeconds s) (lastSSID s) (lastIP s) (lastTarget s)
    (lastPress s) (halted s) (trace s).

Definition initDisplay : list SetupCall :=
  [Display_setBrightness 15; Display_setRotation 1;
   Display_setTextColor GREEN; Display_setTextDatum top_left;
   Display_setTextFont_efontCN_16; Display_setTextSize 1].

(** [softAPIP] is the text of [WiFi.softAPIP()]. *)
Definition startAPMode (softAPIP : string) (s : State)
  : State * list SetupCall :=
  (set_isAPMode true s,
   [WiFi_disconnect; delay_ms 100; WiFi_mode_AP;
    WiFi_softAP DEFAULT_SSID DEFAULT_PASS;
    Serial_println "AP Mode Activated";
    Serial_print "SSID: "; Serial_println DEFAULT_SSID;
    Serial_print "Password: "; Serial_println DEFAULT_PASS;
    Serial_print "AP IP: "; Serial_println softAPIP;
    server_on HTTP_GET "/"; server_on HTTP_POST "/config"; server_begin]).

(** The waiting loop of [connectWiFi]: each element of [polls] is what
    one evaluation of the loop condition reads, [WiFi.status()] and
    [millis()].  The result is the number of times [delay(500)] ran;
    [None] when the readings given run out before the loop ends. *)
Fixpoint wait_connected (start : Z) (polls : list (wl_status * Z))
  : option nat :=
  match polls with
  | [] => None
  | (st, now) :: rest =>
      if negb (is_connected st) && (usub now start <? 10000) then
        match wait_connected start rest with
        | Some n => Some (S n)
        | None => None
        end
      else Some O
  end.

(** [start] is the [millis()] read before the loop, [final] the
    [WiFi.status()] read after it, [mdns] the result of [MDNS.begin]. *)
Definition connectWiFi (start : Z) (polls : list (wl_status * Z))
  (final : wl_status) (mdns : bool) (softAPIP : string) (s : State)
  : option (State * list SetupCall) :=
  let c := deviceConfig s in
  let s1 :=
    emit [DisplayClear; DisplaySetTextDatum middle_center;
          DisplayDrawString "正在连接 WiFi..." (DISPLAY_WIDTH / 2)
            (DISPLAY_HEIGHT / 2);
          DisplaySetTextDatum top_left] s in
  match wait_connected start polls with
  | None => None
  | Some n =>
      let waited :=
        (WiFi_begin (String_of_chars (ssid c)) (String_of_chars (password c))
         :: repeat (delay_ms 500) n)%list in
      if negb (is_connected final) then
        let (s2, calls) := startAPMode softAPIP s1 in
        Some (emit [DisplayClear; DisplaySetTextColor RED;
                    DisplayDrawString "连接指定 WIFI 失败" 0 10;
                    DisplayDrawString "请连接以下热点重新配网" 0 30;
                    DisplaySetTextColor GREEN;
                    DisplayDrawString ("名称: " ++ DEFAULT_SSID) 0 50;
                    DisplayDrawString ("密码: " ++ DEFAULT_PASS) 0 70] s2,
              (waited ++ calls)%list)
      else
        Some (s1,
              (waited
               ++ MDNS_begin "m5stickc-plus2"
                  :: (if negb mdns
                      then [Serial_println "Error setting up MDNS responder!"]
                      else [])
               ++ [server_on HTTP_GET "/"; server_on HTTP_GET "/config";
                   server_on HTTP_POST "/update"; server_begin])%list)
  end.

(** [setup()] over a storage image; [w] is the network as
    [drawStatusScreen] sees it, [now] the [millis()] that becomes
    [lastActivityTime]. *)
Definition setup (image : Config) (start : Z) (polls : list (wl_status * Z))
  (final : wl_status) (mdns : bool) (softAPIP : string) (w : WiFi) (now : Z)
  : option (State * list SetupCall) :=
  let s1 := loadConfig (boot image) in
  match connectWiFi start polls final mdns softAPIP s1 with
  | None => None
  | Some (s2, calls) =>
      let s3 := drawStatusScreen w true s2 in
      let s4 :=
        if negb (screenEnabled s3) then emit [DisplayClear; DisplaySleep] s3
        else s3 in
      Some (set_lastActivityTime now s4,
            ([StickCP2_begin; pinMode_INPUT_PULLUP BUTTON_C_PIN;
              EEPROM_begin EEPROM_SIZE] ++ initDisplay ++ [delay_ms 1000]
             ++ calls ++ [delay_ms SCREEN_TIMEOUT])%list)
  end.

(** Clock readings of the waiting loop that respect its [delay(500)]. *)
Fixpoint paced (lo : Z) (polls : list (wl_status * Z)) : Prop :=
  match polls with
  | [] => True
  | (_, t) :: rest => lo <= t < 4294967296 /\ paced (t + 500) rest
  end.

(** What the web server answers to a path no handler is registered for. *)
Definition not_found (q : Request) (s : State) : State :=
  emit [ServerSend 404 "text/plain" ("Not found: " ++ uri q)] s.

(** Twenty-one readings 500 ms apart from [t] on, none connected. *)
Fixpoint never_connected (n : nat) (t : Z) : list (wl_status * Z) :=
  match n with
  | O => []
  | S k => (WL_DISCONNECTED, t) :: never_connected k (t + 500)
  end.

(** The routes a start-up log registers. *)
Definition method_eqb (a b : Method) : bool :=
  match a, b with
  | HTTP_GET, HTTP_GET => true
  | HTTP_POST, HTTP_POST => true
  | _, _ => false
  end.

Definition registers (q : Request) (c : SetupCall) : bool :=
  match c with
  | server_on m path => method_eqb m (method q) && String.eqb (uri q) path
  | _ => false
  end.

Definition is_registered (q : Request) (calls : list SetupCall) : bool :=
  existsb (registers q) calls.

(** The waits of the connecting loop in a start-up log. *)
Definition is_wait (c : SetupCall) : bool :=
  match c with
  | delay_ms ms => ms =? 500
  | _ => false
  end.

End Part000.

(* ================================================================== *)
(** * Vocabulary of the statements *)

Module Vocabulary.

(** A form value in which [atol] finds a number: after the white space
    and one optional sign comes a decimal digit. *)
Definition starts_with_digit (s : string) : bool :=
  match s with
  | String c _ => isdigit c
  | EmptyString => false
  end.

Definition numeric (v : string) : bool :=
  match skip_space v with
  | String "-" rest => starts_with_digit rest
  | String "+" rest => starts_with_digit rest
  | s' => starts_with_digit s'
  end.

(** The number of characters of a C string: those before its NUL. *)
Fixpoint strlen (s : string) : nat :=
  match s with
  | EmptyString => O
  | String c rest => if is_NUL c then O else S (strlen rest)
  end.

(** The characters of a C string. *)
Fixpoint c_str (s : string) : string :=
  match s with
  | EmptyString => EmptyString
  | String c rest => if is_NUL c then EmptyString else String c (c_str rest)
  end.

(** The action codes [sendRequest] knows. *)
Definition known_action (a : Z) : Prop := 0 <= a <= 3.

End Vocabulary.

Import Vocabulary.

(* ================================================================== *)
(** * Facts about the Arduino core model *)

Module ArduinoFacts.

Lemma to_int_id (z : Z) : is_int z -> to_int z = z.
Proof.
  unfold is_int, INT_MIN, INT_MAX, to_int. intros H.
  rewrite Z.mod_small; lia.
Qed.

Lemma to_ulong_id (z : Z) : is_ulong z -> to_ulong z = z.
Proof.
  unfold is_ulong, to_ulong. intros H. now apply Z.mod_small.
Qed.

Lemma to_ulong_range (z : Z) : is_ulong (to_ulong z).
Proof.
  unfold is_ulong, to_ulong. apply Z.mod_pos_bound. lia.
Qed.


Lemma saturate_is_int (z : Z) : is_int (saturate z).
Proof.
  unfold saturate, is_int, INT_MIN, INT_MAX.
  destruct (z <? -2147483648) eqn:E1; [lia|].
  destruct (2147483647 <? z) eqn:E2; lia.
Qed.

Lemma saturate_id (z : Z) : is_int z -> saturate z = z.
Proof.
  unfold saturate, is_int, INT_MIN, INT_MAX. intros H.
  destruct (z <? -2147483648) eqn:E1; [lia|].
  destruct (2147483647 <? z) eqn:E2; lia.
Qed.

Lemma toInt_is_int (s : string) : is_int (toInt s).
Proof.
  unfold toInt.
  destruct (skip_space s) as [|c r]; [apply saturate_is_int|].
  destruct c as [[] [] [] [] [] [] [] []]; apply saturate_is_int.
Qed.

(** [long] to [int] changes nothing on this target. *)
Lemma to_int_toInt (s : string) : to_int (toInt s) = toInt s.
Proof. apply to_int_id, toInt_is_int. Qed.

(** ** [cstr] and [String_of_chars] *)

Lemma String_of_chars_cstr (arr : list ascii) (H : string) :
  cstr arr = Some H -> String_of_chars arr = H.
Proof.
  revert H. induction arr as [|c rest IH]; simpl; intros H E.
  - discriminate.
  - destruct (is_NUL c).
    + now inversion E.
    + destruct (cstr rest) as [t|]; [|discriminate].
      inversion E. f_equal. now apply IH.
Qed.

(** ** [strncpy] *)

Lemma strncpy_length (src : string) (n : nat) :
  List.length (strncpy src n) = n.
Proof.
  revert src. induction n as [|k IH]; simpl; intros src; [reflexivity|].
  destruct src as [|c rest]; simpl; [now rewrite IH|].
  destruct (is_NUL c); simpl; now rewrite IH.
Qed.

Lemma cstr_strncpy_empty (k : nat) :
  cstr (strncpy EmptyString (S k)) = Some EmptyString.
Proof. reflexivity. Qed.

(** A source shorter than the array arrives whole and terminated. *)
Lemma cstr_strncpy_short (src : string) (n : nat) :
  (strlen src < n)%nat -> cstr (strncpy src n) = Some (c_str src).
Proof.
  revert src. induction n as [|k IH]; intros src Hlt; [lia|].
  destruct src as [|c rest]; [reflexivity|].
  simpl in *. destruct (is_NUL c) eqn:Ec.
  - reflexivity.
  - simpl. rewrite Ec. rewrite IH by lia. reflexivity.
Qed.

(** A source that fills the array leaves it without a terminator. *)
Lemma cstr_strncpy_long (src : string) (n : nat) :
  (n <= strlen src)%nat -> cstr (strncpy src n) = None.
Proof.
  revert src. induction n as [|k IH]; intros src Hle; [reflexivity|].
  destruct src as [|c rest]; simpl in *; [lia|].
  destruct (is_NUL c) eqn:Ec; [lia|].
  simpl. rewrite Ec. rewrite IH by lia. reflexivity.
Qed.

(** ** [toInt] on a value with no number in it *)

Lemma parse_digits_no_digit (s : string) (acc : Z) :
  starts_with_digit s = false -> parse_digits s acc = acc.
Proof.
  destruct s as [|c r]; simpl; [reflexivity|]. now intros ->.
Qed.

Lemma toInt_not_numeric (v : string) : numeric v = false -> toInt v = 0.
Proof.
  unfold numeric, toInt.
  destruct (skip_space v) as [|c r]; [reflexivity|].
  destruct c as [[] [] [] [] [] [] [] []]; intros H;
    rewrite parse_digits_no_digit by exact H; reflexivity.
Qed.

(** ** [String(int)] read back by [toInt] *)

Lemma digit_cases (d : Z) :
  0 <= d <= 9 ->
  d = 0 \/ d = 1 \/ d = 2 \/ d = 3 \/ d = 4 \/ d = 5 \/ d = 6 \/ d = 7
  \/ d = 8 \/ d = 9.
Proof. lia. Qed.

Lemma digit_char_spec (d : Z) :
  0 <= d <= 9 ->
  isdigit (digit_char d) = true /\ digit_val (digit_char d) = d.
Proof.
  intros H. destruct (digit_cases d H) as [E|[E|[E|[E|[E|[E|[E|[E|[E|E]]]]]]]]];
    subst d; split; reflexivity.
Qed.

Lemma parse_digits_utoa (fuel : nat) :
  forall (n : Z) (acc : string),
    0 <= n < 10 ^ Z.of_nat fuel ->
    parse_digits (utoa fuel n acc) 0 = parse_digits acc n.
Proof.
  induction fuel as [|f IH]; intros n acc Hn.
  - cbn [utoa]. change (10 ^ Z.of_nat 0) with 1 in Hn.
    replace n with 0 by lia. reflexivity.
  - rewrite Nat2Z.inj_succ, Z.pow_succ_r in Hn by lia.
    assert (Hd : 0 <= n mod 10 <= 9) by (pose proof (Z.mod_pos_bound n 10); lia).
    destruct (digit_char_spec _ Hd) as [Hdig Hval].
    cbn [utoa]. destruct (n <? 10) eqn:E.
    + cbn [parse_digits]. rewrite Hdig, Hval. f_equal.
      rewrite Z.mod_small by lia. reflexivity.
    + rewrite IH.
      * cbn [parse_digits]. rewrite Hdig, Hval. f_equal.
        pose proof (Z.div_mod n 10). lia.
      * split; [apply Z.div_pos; lia|].
        apply Z.div_lt_upper_bound; lia.
Qed.

Lemma utoa_head (fuel : nat) :
  forall (n : Z) (acc : string),
    0 <= n ->
    exists d rest, 0 <= d <= 9 /\ utoa (S fuel) n acc = String (digit_char d) rest.
Proof.
  induction fuel as [|f IH]; intros n acc Hn.
  - exists (n mod 10), acc. split; [pose proof (Z.mod_pos_bound n 10); lia|].
    cbn [utoa]. now destruct (n <? 10).
  - change (utoa (S (S f)) n acc)
      with (if n <? 10 then String (digit_char (n mod 10)) acc
            else utoa (S f) (n / 10) (String (digit_char (n mod 10)) acc)).
    destruct (n <? 10).
    + exists (n mod 10), acc. split; [pose proof (Z.mod_pos_bound n 10); lia|].
      reflexivity.
    + apply IH. apply Z.div_pos; lia.
Qed.

Lemma toInt_digit_head (d : Z) (rest : string) :
  0 <= d <= 9 ->
  toInt (String (digit_char d) rest)
  = saturate (parse_digits (String (digit_char d) rest) 0).
Proof.
  intros H. destruct (digit_cases d H) as [E|[E|[E|[E|[E|[E|[E|[E|[E|E]]]]]]]]];
    subst d; reflexivity.
Qed.

(** Every [int] is the [toInt] of its own decimal text. *)
Lemma toInt_String_of_int (z : Z) : is_int z -> toInt (String_of_int z) = z.
Proof.
  unfold is_int, INT_MIN, INT_MAX. intros Hz.
  assert (P10 : 10 ^ Z.of_nat 10 = 10000000000) by reflexivity.
  unfold String_of_int. destruct (z <? 0) eqn:E.
  - change (toInt (String "-" (utoa 10 (- z) EmptyString)))
      with (saturate (- parse_digits (utoa 10 (- z) EmptyString) 0)).
    rewrite parse_digits_utoa by (rewrite P10; lia).
    cbn [parse_digits]. rewrite saturate_id; [lia|].
    unfold is_int, INT_MIN, INT_MAX. lia.
  - destruct (utoa_head 9 z EmptyString) as (d & rest & Hd & Eq); [lia|].
    rewrite Eq, toInt_digit_head by exact Hd. rewrite <- Eq.
    rewrite parse_digits_utoa by (rewrite P10; lia).
    cbn [parse_digits]. apply saturate_id. unfold is_int, INT_MIN, INT_MAX. lia.
Qed.

(** ** Sample conversions *)

Example String_of_int_8080 : String_of_int 8080 = "8080".
Proof. reflexivity. Qed.

Example String_of_int_minus_one : String_of_int (-1) = "-1".
Proof. reflexivity. Qed.

Example String_of_int_INT_MIN : String_of_int INT_MIN = "-2147483648".
Proof. reflexivity. Qed.

Example toInt_abc : toInt "abc" = 0.
Proof. reflexivity. Qed.

Example toInt_empty : toInt EmptyString = 0.
Proof. reflexivity. Qed.

Example toInt_signed : toInt "  -42 " = -42.
Proof. reflexivity. Qed.

Example toInt_saturates : toInt "99999999999" = INT_MAX.
Proof. reflexivity. Qed.

End ArduinoFacts.

(* ================================================================== *)
(** * page-turner.ino: configuration record and action sender *)

Module PageTurnerFacts.

Import ArduinoFacts PageTurner.

(** ** The action sender *)

(** C1.  For every host string [H] held in [koReaderIP] and every port
    [P], [sendRequest] on a connected device opens exactly the documented
    URL for each of the four actions, issues one GET and closes:
    0 gives [http://H:P/koreader/event/GotoViewRel/-1], 1 gives
    [.../GotoViewRel/1], 2 gives [.../FullRefresh] and 3 gives
    [.../ToggleFrontlight], with [P] in decimal. *)
Theorem sendRequest_url (s : State) (H : string) (P : Z) :
  cstr (koReaderIP (config s)) = Some H ->
  koReaderPort (config s) = P ->
  sendRequest WL_CONNECTED 0 s
  = emit [HttpBegin ("http://" ++ H ++ ":" ++ String_of_int P
                     ++ "/koreader/event/GotoViewRel/-1");
          HttpGET; HttpEnd] s
  /\ sendRequest WL_CONNECTED 1 s
     = emit [HttpBegin ("http://" ++ H ++ ":" ++ String_of_int P
                        ++ "/koreader/event/GotoViewRel/1");
             HttpGET; HttpEnd] s
  /\ sendRequest WL_CONNECTED 2 s
     = emit [HttpBegin ("http://" ++ H ++ ":" ++ String_of_int P
                        ++ "/koreader/event/FullRefresh");
             HttpGET; HttpEnd] s
  /\ sendRequest WL_CONNECTED 3 s
     = emit [HttpBegin ("http://" ++ H ++ ":" ++ String_of_int P
                        ++ "/koreader/event/ToggleFrontlight");
             HttpGET; HttpEnd] s.
Proof.
  intros HH HP. apply String_of_chars_cstr in HH.
  unfold sendRequest. cbn [is_connected negb].
  rewrite HH, HP. repeat split; reflexivity.
Qed.

(** The example of the specification: host 192.168.1.100, port 8080,
    NextPage. *)
Lemma sendRequest_url_witness :
  sendRequest WL_CONNECTED 1 (boot default_config)
  = emit [HttpBegin "http://192.168.1.100:8080/koreader/event/GotoViewRel/1";
          HttpGET; HttpEnd] (boot default_config).
Proof.
  exact (proj1 (proj2
    (sendRequest_url (boot default_config) "192.168.1.100" 8080
       eq_refl eq_refl))).
Defined.

(** Without a connection nothing is built and nothing is sent. *)
Lemma sendRequest_not_connected (st : wl_status) (action : Z) (s : State) :
  is_connected st = false -> sendRequest st action s = s.
Proof. intros E. unfold sendRequest. now rewrite E. Qed.

Lemma sendRequest_default (st : wl_status) (action : Z) (s : State) :
  ~ known_action action -> sendRequest st action s = s.
Proof.
  unfold known_action. intros Hk. unfold sendRequest.
  destruct (negb (is_connected st)); [reflexivity|].
  destruct action as [|p|p]; [lia| |reflexivity].
  destruct p as [[p|p|]|[p|p|]|]; try reflexivity; lia.
Qed.

(** ** The save handler *)

Lemma handleSave_config (f : Form) (s : State) :
  eeprom (handleSave f s) = config (handleSave f s).
Proof. reflexivity. Qed.

Lemma handleSave_stored (fld : NumericField) (f : Form) (s : State) :
  stored fld (config (handleSave f s)) = toInt (arg f (field_name fld)).
Proof. destruct fld; cbn; apply to_int_toInt. Qed.

Lemma handleSave_trace (f : Form) (s : State) :
  trace (handleSave f s)
  = (trace s ++ [ServerSend 200 "text/html; charset=UTF-8" SavedPage;
                 Delay 1000; Restart])%list.
Proof. reflexivity. Qed.



(** A value that starts with digits is not rejected either: the digits
    are what is stored. *)
Lemma handleSave_numeric_prefix (s : State) :
  koReaderPort (config (handleSave [("koReaderPort", "12abc")] s)) = 12.
Proof. reflexivity. Qed.

(** C10.  For every action code outside 0..3 [sendRequest] returns
    without an HTTP call and without touching the state, and the save
    handler stores the code in all four button slots when the form asks
    for it: no value is refused. *)
Theorem sendRequest_unknown_action (st : wl_status) (action : Z) (s : State) :
  is_int action ->
  ~ known_action action ->
  sendRequest st action s = s
  /\ exists f : Form, forall s0 : State,
       aBtnClickAction (config (handleSave f s0)) = action
       /\ aBtnHoldAction (config (handleSave f s0)) = action
       /\ bBtnClickAction (config (handleSave f s0)) = action
       /\ bBtnHoldAction (config (handleSave f s0)) = action
       /\ eeprom (handleSave f s0) = config (handleSave f s0).
Proof.
  intros Hi Hk. split; [now apply sendRequest_default|].
  exists [("aClick", String_of_int action); ("aLong", String_of_int action);
          ("bClick", String_of_int action); ("bLong", String_of_int action)].
  intros s0.
  pose proof (handleSave_stored F_aClick) as A.
  pose proof (handleSave_stored F_aLong) as B.
  pose proof (handleSave_stored F_bClick) as C.
  pose proof (handleSave_stored F_bLong) as D.
  cbn [stored field_name] in A, B, C, D.
  rewrite A, B, C, D. cbn [arg String.eqb Ascii.eqb Bool.eqb].
  rewrite toInt_String_of_int by exact Hi. repeat split; reflexivity.
Qed.

Lemma sendRequest_unknown_action_witness :
  sendRequest WL_CONNECTED 7 (boot default_config) = boot default_config.
Proof.
  refine (proj1
    (sendRequest_unknown_action WL_CONNECTED 7 (boot default_config) _ _)).
  - unfold is_int, INT_MIN, INT_MAX. lia.
  - unfold known_action. lia.
Defined.

(** ** String fields of the save handler *)

Lemma handleSave_ssid (f : Form) (s : State) :
  ssid (config (handleSave f s)) = strncpy (arg f "ssid") 32.
Proof. reflexivity. Qed.

Lemma handleSave_password (f : Form) (s : State) :
  password (config (handleSave f s)) = strncpy (arg f "password") 32.
Proof. reflexivity. Qed.

(** A submitted name of at most 31 characters is stored whole and
    terminated. *)
Lemma handleSave_ssid_short (f : Form) (s : State) :
  (strlen (arg f "ssid") < 32)%nat ->
  cstr (ssid (config (handleSave f s))) = Some (c_str (arg f "ssid")).
Proof. intros H. rewrite handleSave_ssid. now apply cstr_strncpy_short. Qed.

(** A submitted name of 32 characters or more fills the array and leaves
    no room for the terminator. *)
Lemma handleSave_ssid_long (f : Form) (s : State) :
  (32 <= strlen (arg f "ssid"))%nat ->
  cstr (ssid (config (handleSave f s))) = None.
Proof. intros H. rewrite handleSave_ssid. now apply cstr_strncpy_long. Qed.

Lemma handleSave_password_long (f : Form) (s : State) :
  (32 <= strlen (arg f "password"))%nat ->
  cstr (password (config (handleSave f s))) = None.
Proof. intros H. rewrite handleSave_password. now apply cstr_strncpy_long. Qed.

(** C7, at the failing input.  A save request whose [ssid] has 32
    characters leaves [config.ssid] filled with these 32 characters: the
    array holds no NUL, in memory and in storage, so the field is not a
    terminated string of at most 31 characters. *)
Theorem handleSave_ssid_not_terminated (s : State) :
  ssid (config (handleSave [("ssid", ssid_of_32)] s))
  = list_ascii_of_string ssid_of_32
  /\ List.length (ssid (config (handleSave [("ssid", ssid_of_32)] s))) = 32%nat
  /\ cstr (ssid (config (handleSave [("ssid", ssid_of_32)] s))) = None
  /\ cstr (ssid (eeprom (handleSave [("ssid", ssid_of_32)] s))) = None.
Proof. repeat split; reflexivity. Qed.

(** ** Loading the record *)

(** Whatever the storage holds, [loadConfig] leaves it as it is and
    makes it the record in memory: the call of [saveConfig] writes back
    what was just read. *)
Lemma loadConfig_keeps_image (s : State) :
  config (loadConfig s) = eeprom s /\ eeprom (loadConfig s) = eeprom s.
Proof.
  unfold loadConfig. cbn [config set_config].
  destruct (strcmp_eq (ssid (eeprom s)) "defaultSSID"); split; reflexivity.
Qed.

(** C4, at the failing input.  On a first boot over storage that was
    never written, [loadConfig] overwrites the built-in defaults with the
    erased image and persists nothing: the record in memory and the
    record read back at the next boot are the erased image, not the defaults. *)
Theorem loadConfig_first_boot_loses_defaults :
  config (boot erased_image) = default_config
  /\ config (loadConfig (boot erased_image)) = erased_image
  /\ eeprom (loadConfig (boot erased_image)) = erased_image
  /\ config (loadConfig (boot (eeprom (loadConfig (boot erased_image)))))
     = erased_image
  /\ erased_image <> default_config.
Proof.
  repeat split; try reflexivity. discriminate.
Qed.

End PageTurnerFacts.

(* ================================================================== *)
(** * page-turner.ino: idle timer, button dispatch and screen flag *)

Module IdleTimerFacts.

Import ArduinoFacts PageTurner.

(** ** Arithmetic of the thresholds and of the remaining seconds *)

Lemma remaining_exact (autoShutdown inactiveTime : Z) :
  is_ulong inactiveTime ->
  is_int autoShutdown ->
  inactiveTime / 1000 < autoShutdown ->
  remaining autoShutdown inactiveTime = autoShutdown - inactiveTime / 1000.
Proof.
  unfold is_ulong, is_int, INT_MIN, INT_MAX, remaining, usub. intros Hi Ha Hd.
  assert (0 <= inactiveTime / 1000) by (apply Z.div_pos; lia).
  rewrite (to_ulong_id autoShutdown) by (unfold is_ulong; lia).
  rewrite to_ulong_id by (unfold is_ulong; lia).
  apply to_int_id. unfold is_int, INT_MIN, INT_MAX. lia.
Qed.

Lemma shutdown_threshold_exact (c : Config) :
  0 <= autoShutdownTime c ->
  autoShutdownTime c * 1000 <= INT_MAX ->
  shutdown_threshold c = autoShutdownTime c * 1000.
Proof.
  unfold INT_MAX, shutdown_threshold, imul. intros H0 H1.
  rewrite to_int_id by (unfold is_int, INT_MIN, INT_MAX; lia).
  apply to_ulong_id. unfold is_ulong. lia.
Qed.

Lemma countdown_threshold_exact (c : Config) :
  is_int (autoShutdownTime c - countdownTime c) ->
  0 <= (autoShutdownTime c - countdownTime c) * 1000 <= INT_MAX ->
  countdown_threshold c = (autoShutdownTime c - countdownTime c) * 1000.
Proof.
  unfold INT_MAX, countdown_threshold, imul, isub. intros H0 H1.
  rewrite (to_int_id (_ - _)) by exact H0.
  rewrite to_int_id by (unfold is_int, INT_MIN, INT_MAX; lia).
  apply to_ulong_id. unfold is_ulong. lia.
Qed.

(** With a sane record the countdown branch of [handleAutoShutdown] is
    taken exactly when the idle time, in whole seconds, lies in the
    countdown window. *)
Lemma countdown_window (c : Config) (inactiveTime : Z) :
  0 <= countdownTime c <= autoShutdownTime c ->
  autoShutdownTime c * 1000 <= INT_MAX ->
  0 <= inactiveTime ->
  (countdown_threshold c <= inactiveTime < shutdown_threshold c
   <-> autoShutdownTime c - countdownTime c <= inactiveTime / 1000
       < autoShutdownTime c).
Proof.
  unfold INT_MAX. intros Hc Ha Hi.
  rewrite shutdown_threshold_exact by (unfold INT_MAX; lia).
  rewrite countdown_threshold_exact
    by (unfold is_int, INT_MIN, INT_MAX; lia).
  pose proof (Z.div_mod inactiveTime 1000).
  pose proof (Z.mod_pos_bound inactiveTime 1000).
  lia.
Qed.


(** ** The countdown handler *)

(** Projections of updated states. *)
Ltac proj_simpl :=
  cbn [config eeprom lastDisplayedText lastActiveTime pwrBtnpressStartTime
       textColor lastRemainingSeconds lastBatteryLevel turnOnScreen
       delayToTurnOffScreen onCountdown screenStateBeforeCountdown halted
       trace set_config set_eeprom set_lastDisplayedText set_lastActiveTime
       set_pwrBtnpressStartTime set_textColor set_lastRemainingSeconds
       set_lastBatteryLevel set_turnOnScreen set_delayToTurnOffScreen
       set_onCountdown set_screenStateBeforeCountdown set_halted emit
       negb andb orb fst snd] in *.

Lemma displayText_trace (text : string) (s : State) :
  trace (displayText text s)
  = (trace s
     ++ (if String.eqb text (lastDisplayedText s) then []
         else [DisplayFillScreen BLACK; DisplaySetCursor 0 0;
               DisplaySetTextSize 1; DisplaySetTextColor (textColor s);
               DisplayPrintln text]))%list.
Proof.
  unfold displayText.
  destruct (String.eqb text (lastDisplayedText s)); proj_simpl.
  - now rewrite app_nil_r.
  - reflexivity.
Qed.

Lemma handleShutdownCountdown_trace (currentTime inactiveTime : Z) (s : State) :
  shutdownCountdownScreen (config s) = true ->
  trace (handleShutdownCountdown currentTime inactiveTime s)
  = (trace s
     ++ (if remaining (autoShutdownTime (config s)) inactiveTime
            =? lastRemainingSeconds s
         then []
         else
           (if shutdownCountdownBeep (config s)
            then [SpeakerTone BEEP_SHUTDOWN_FREQ BEEP_SHUTDOWN_DURATION]
            else [])
           ++ (if String.eqb
                    ("关机倒计时: "
                     ++ String_of_int
                          (remaining (autoShutdownTime (config s)) inactiveTime)
                     ++ " 秒") (lastDisplayedText s)
               then []
               else [DisplayFillScreen BLACK; DisplaySetCursor 0 0;
                     DisplaySetTextSize 1; DisplaySetTextColor RED;
                     DisplayPrintln
                       ("关机倒计时: "
                        ++ String_of_int
                             (remaining (autoShutdownTime (config s))
                                inactiveTime)
                        ++ " 秒")])))%list.
Proof.
  intros Hp. unfold handleShutdownCountdown. rewrite Hp.
  destruct (onCountdown s); proj_simpl;
    (destruct (remaining (autoShutdownTime (config s)) inactiveTime
               =? lastRemainingSeconds s); proj_simpl;
     [now rewrite app_nil_r|]);
    rewrite displayText_trace;
    destruct (shutdownCountdownBeep (config s)); proj_simpl;
    rewrite <- ?app_assoc; reflexivity.
Qed.

Lemma handleShutdownCountdown_remaining
  (currentTime inactiveTime : Z) (s : State) :
  shutdownCountdownScreen (config s) = true ->
  lastRemainingSeconds (handleShutdownCountdown currentTime inactiveTime s)
  = remaining (autoShutdownTime (config s)) inactiveTime.
Proof.
  intros Hp. unfold handleShutdownCountdown. rewrite Hp.
  destruct (onCountdown s); proj_simpl;
    (destruct (remaining (autoShutdownTime (config s)) inactiveTime
               =? lastRemainingSeconds s) eqn:E; proj_simpl;
     [symmetry; now apply Z.eqb_eq|reflexivity]).
Qed.

(** C2.  For an idle time of [d] whole seconds (the elapsed
    milliseconds divided by 1000) with
    [autoShutdownTime - countdownTime <= d < autoShutdownTime], the
    countdown handler computes [autoShutdownTime - d] and remembers it in
    [lastRemainingSeconds]; the only text it prints is the countdown text
    of that value, and it prints only when the value differs from
    [lastRemainingSeconds] as the previous tick left it.  When it
    differs (and the text is not already on the display) the text is
    printed. *)
Theorem countdown_displays_remaining
  (currentTime inactiveTime d : Z) (s : State) :
  is_ulong inactiveTime ->
  is_int (autoShutdownTime (config s)) ->
  d = inactiveTime / 1000 ->
  autoShutdownTime (config s) - countdownTime (config s) <= d
    < autoShutdownTime (config s) ->
  shutdownCountdownScreen (config s) = true ->
  exists es : list Event,
    trace (handleShutdownCountdown currentTime inactiveTime s)
    = (trace s ++ es)%list
    /\ lastRemainingSeconds (handleShutdownCountdown currentTime inactiveTime s)
       = autoShutdownTime (config s) - d
    /\ (forall text : string,
          In (DisplayPrintln text) es ->
          text = ("关机倒计时: "
                  ++ String_of_int (autoShutdownTime (config s) - d)
                  ++ " 秒")%string
          /\ autoShutdownTime (config s) - d <> lastRemainingSeconds s)
    /\ (autoShutdownTime (config s) - d = lastRemainingSeconds s -> es = [])
    /\ (autoShutdownTime (config s) - d <> lastRemainingSeconds s ->
        ("关机倒计时: " ++ String_of_int (autoShutdownTime (config s) - d)
         ++ " 秒")%string <> lastDisplayedText s ->
        In (DisplayPrintln
              ("关机倒计时: "
               ++ String_of_int (autoShutdownTime (config s) - d)
               ++ " 秒")) es).
Proof.
  intros Hi Ha Hd Hw Hp.
  rewrite handleShutdownCountdown_trace, handleShutdownCountdown_remaining
    by exact Hp.
  rewrite remaining_exact by (try assumption; lia).
  rewrite <- Hd.
  set (r := autoShutdownTime (config s) - d).
  set (text := ("关机倒计时: " ++ String_of_int r ++ " 秒")%string).
  eexists. split; [reflexivity|]. split; [reflexivity|].
  split; [intros t Ht | split; [intros Heq | intros Hne Hnt]].
  - destruct (r =? lastRemainingSeconds s) eqn:E; [contradiction|].
    apply Z.eqb_neq in E. split; [|exact E].
    apply in_app_or in Ht. destruct Ht as [Ht|Ht].
    + destruct (shutdownCountdownBeep (config s));
        [destruct Ht as [Ht|[]]; discriminate|contradiction].
    + destruct (String.eqb text (lastDisplayedText s)); [contradiction|].
      repeat (destruct Ht as [Ht|Ht]; try discriminate);
        [now inversion Ht|contradiction].
  - apply Z.eqb_eq in Heq. now rewrite Heq.
  - apply Z.eqb_neq in Hne. rewrite Hne.
    apply String.eqb_neq in Hnt. rewrite Hnt.
    apply in_or_app. right. cbn. tauto.
Qed.

Lemma countdown_displays_remaining_witness :
  lastRemainingSeconds
    (handleShutdownCountdown 595000 595000 (running default_config true))
  = 5.
Proof.
  assert (H1 : is_ulong 595000) by (unfold is_ulong; lia).
  assert (H2 : is_int (autoShutdownTime (config (running default_config true))))
    by (unfold is_int, INT_MIN, INT_MAX; simpl; lia).
  assert (H4 : autoShutdownTime (config (running default_config true))
               - countdownTime (config (running default_config true)) <= 595
               < autoShutdownTime (config (running default_config true)))
    by (simpl; lia).
  destruct (countdown_displays_remaining 595000 595000 595
              (running default_config true) H1 H2 eq_refl H4 eq_refl)
    as (es & _ & Hr & _).
  exact Hr.
Defined.

(** ** What each handler leaves alone *)

Ltac split_ifs :=
  repeat match goal with
         | |- context [if ?b then _ else _] => destruct b eqn:?; proj_simpl
         end.

Lemma sendRequest_emits (st : wl_status) (action : Z) (s : State) :
  exists es : list Event, sendRequest st action s = emit es s.
Proof.
  assert (E : s = emit [] s)
    by (destruct s; unfold emit; cbn; now rewrite app_nil_r).
  unfold sendRequest. destruct (negb (is_connected st)); [now exists []|].
  destruct action as [|p|p]; [eexists; reflexivity| |now exists []].
  destruct p as [[p|p|]|[p|p|]|]; try (now exists []); eexists; reflexivity.
Qed.

Lemma handleScreenSwitch_timer_view (w : WiFi) (battery now : Z) (s : State) :
  timer_view (handleScreenSwitch w battery now s) = timer_view s.
Proof.
  unfold handleScreenSwitch, drawInfoScreen, displayText, timer_view.
  split_ifs; reflexivity.
Qed.

Lemma handleNormalBtnEvent_not_connected
  (st : wl_status) (btn : Button_Class) (now ca ha : Z) (s : State) :
  is_connected st = false -> handleNormalBtnEvent st btn now ca ha s = s.
Proof. intros E. unfold handleNormalBtnEvent. now rewrite E. Qed.

Lemma handleNormalBtnEvent_view
  (st : wl_status) (btn : Button_Class) (now ca ha : Z) (s : State) :
  config (handleNormalBtnEvent st btn now ca ha s) = config s
  /\ pwrBtnpressStartTime (handleNormalBtnEvent st btn now ca ha s)
     = pwrBtnpressStartTime s
  /\ onCountdown (handleNormalBtnEvent st btn now ca ha s) = onCountdown s
  /\ screenStateBeforeCountdown (handleNormalBtnEvent st btn now ca ha s)
     = screenStateBeforeCountdown s
  /\ lastRemainingSeconds (handleNormalBtnEvent st btn now ca ha s)
     = (if is_connected st && pressed btn then -1
        else lastRemainingSeconds s).
Proof.
  unfold handleNormalBtnEvent, pressed.
  destruct (is_connected st); proj_simpl; [|repeat split; reflexivity].
  destruct (wasClicked btn), (wasHold btn); proj_simpl;
    try (repeat split; reflexivity);
    match goal with
    | |- context [sendRequest ?a ?b ?c] =>
        destruct (sendRequest_emits a b c) as [es ->]
    end;
    destruct (beepOnPress (config s)); proj_simpl; repeat split; reflexivity.
Qed.

Lemma isPWRBtnClicked_view (pinLow : bool) (now : Z) (s : State) :
  config (snd (isPWRBtnClicked pinLow now s)) = config s
  /\ onCountdown (snd (isPWRBtnClicked pinLow now s)) = onCountdown s
  /\ screenStateBeforeCountdown (snd (isPWRBtnClicked pinLow now s))
     = screenStateBeforeCountdown s
  /\ lastRemainingSeconds (snd (isPWRBtnClicked pinLow now s))
     = lastRemainingSeconds s.
Proof.
  unfold isPWRBtnClicked. split_ifs; repeat split; reflexivity.
Qed.

Lemma handlePWRBtnEvent_view (pinLow : bool) (now nowActive : Z) (s : State) :
  config (handlePWRBtnEvent pinLow now nowActive s) = config s
  /\ onCountdown (handlePWRBtnEvent pinLow now nowActive s) = onCountdown s
  /\ screenStateBeforeCountdown (handlePWRBtnEvent pinLow now nowActive s)
     = screenStateBeforeCountdown s
  /\ lastRemainingSeconds (handlePWRBtnEvent pinLow now nowActive s)
     = (if fst (isPWRBtnClicked pinLow now s) then -1
        else lastRemainingSeconds s).
Proof.
  unfold handlePWRBtnEvent.
  pose proof (isPWRBtnClicked_view pinLow now s) as V.
  destruct (isPWRBtnClicked pinLow now s) as [clicked s0].
  proj_simpl. destruct V as (V1 & V2 & V3 & V4).
  destruct clicked; [|repeat split; assumption].
  destruct (beepOnPress (config s0)); proj_simpl; repeat split; assumption.
Qed.

(** The click test of the power key depends on the state through
    [pwrBtnpressStartTime] alone. *)
Lemma isPWRBtnClicked_fst (pinLow : bool) (now : Z) (s s' : State) :
  pwrBtnpressStartTime s' = pwrBtnpressStartTime s ->
  fst (isPWRBtnClicked pinLow now s') = fst (isPWRBtnClicked pinLow now s).
Proof.
  intros E. unfold isPWRBtnClicked. rewrite E.
  split_ifs; reflexivity.
Qed.

(** ** The state in which the idle timer is evaluated *)

Lemma before_idle_check_view (i : Inputs) (s : State) :
  config (before_idle_check i s) = config s
  /\ onCountdown (before_idle_check i s) = onCountdown s
  /\ screenStateBeforeCountdown (before_idle_check i s)
     = screenStateBeforeCountdown s
  /\ (activity i s = true -> lastRemainingSeconds (before_idle_check i s) = -1).
Proof.
  unfold before_idle_check, activity.
  set (s1 := handleScreenSwitch (wifi i) (batteryLevel i) (t_screen i) s).
  pose proof (handleScreenSwitch_timer_view (wifi i) (batteryLevel i)
                (t_screen i) s) as V1.
  fold s1 in V1. unfold timer_view in V1. inversion V1 as [[C1 A1 P1 R1 O1 B1 H1]].
  set (s2 := handleNormalBtnEvent (status (wifi i)) (BtnA i) (t_btnA i)
               (aBtnClickAction (config s1)) (aBtnHoldAction (config s1)) s1).
  destruct (handleNormalBtnEvent_view (status (wifi i)) (BtnA i) (t_btnA i)
              (aBtnClickAction (config s1)) (aBtnHoldAction (config s1)) s1)
    as (C2 & P2 & O2 & B2 & R2).
  fold s2 in C2, P2, O2, B2, R2.
  set (s3 := handleNormalBtnEvent (status (wifi i)) (BtnB i) (t_btnB i)
               (bBtnClickAction (config s2)) (bBtnHoldAction (config s2)) s2).
  destruct (handleNormalBtnEvent_view (status (wifi i)) (BtnB i) (t_btnB i)
              (bBtnClickAction (config s2)) (bBtnHoldAction (config s2)) s2)
    as (C3 & P3 & O3 & B3 & R3).
  fold s3 in C3, P3, O3, B3, R3.
  destruct (handlePWRBtnEvent_view (pwrPinLow i) (t_pwr i) (t_pwrActive i) s3)
    as (C4 & O4 & B4 & R4).
  repeat split; try congruence.
  intros Hact. rewrite R4.
  rewrite (isPWRBtnClicked_fst _ _ s s3) by congruence.
  destruct (fst (isPWRBtnClicked (pwrPinLow i) (t_pwr i) s)); [reflexivity|].
  rewrite R3. destruct (is_connected (status (wifi i))); [|discriminate].
  cbn [andb orb] in *.
  destruct (pressed (BtnB i)); [reflexivity|].
  rewrite R2. cbn [andb].
  destruct (pressed (BtnA i)); [reflexivity|discriminate].
Qed.

Lemma handleNormalBtnEvent_lastActiveTime
  (st : wl_status) (btn : Button_Class) (now ca ha : Z) (s : State) :
  lastActiveTime (handleNormalBtnEvent st btn now ca ha s)
  = (if is_connected st && pressed btn then now else lastActiveTime s).
Proof.
  unfold handleNormalBtnEvent, pressed.
  destruct (is_connected st); proj_simpl; [|reflexivity].
  destruct (wasClicked btn), (wasHold btn); proj_simpl; try reflexivity;
    match goal with
    | |- context [sendRequest ?a ?b ?c] =>
        destruct (sendRequest_emits a b c) as [es ->]
    end;
    destruct (beepOnPress (config s)); reflexivity.
Qed.

Lemma handlePWRBtnEvent_lastActiveTime
  (pinLow : bool) (now nowActive : Z) (s : State) :
  lastActiveTime (handlePWRBtnEvent pinLow now nowActive s)
  = (if fst (isPWRBtnClicked pinLow now s) then nowActive
     else lastActiveTime s).
Proof.
  unfold handlePWRBtnEvent, isPWRBtnClicked.
  split_ifs; reflexivity.
Qed.

(** After registered activity [lastActiveTime] is one of the clock
    readings of the pass. *)
Lemma before_idle_check_lastActiveTime (i : Inputs) (s : State) :
  activity i s = true ->
  lastActiveTime (before_idle_check i s) = t_btnA i
  \/ lastActiveTime (before_idle_check i s) = t_btnB i
  \/ lastActiveTime (before_idle_check i s) = t_pwrActive i.
Proof.
  unfold before_idle_check, activity.
  set (s1 := handleScreenSwitch (wifi i) (batteryLevel i) (t_screen i) s).
  pose proof (handleScreenSwitch_timer_view (wifi i) (batteryLevel i)
                (t_screen i) s) as V1.
  fold s1 in V1. unfold timer_view in V1.
  inversion V1 as [[C1 A1 P1 R1 O1 B1 H1]].
  set (s2 := handleNormalBtnEvent (status (wifi i)) (BtnA i) (t_btnA i)
               (aBtnClickAction (config s1)) (aBtnHoldAction (config s1)) s1).
  destruct (handleNormalBtnEvent_view (status (wifi i)) (BtnA i) (t_btnA i)
              (aBtnClickAction (config s1)) (aBtnHoldAction (config s1)) s1)
    as (_ & P2 & _).
  pose proof (handleNormalBtnEvent_lastActiveTime (status (wifi i)) (BtnA i)
                (t_btnA i) (aBtnClickAction (config s1))
                (aBtnHoldAction (config s1)) s1) as A2.
  fold s2 in P2, A2.
  set (s3 := handleNormalBtnEvent (status (wifi i)) (BtnB i) (t_btnB i)
               (bBtnClickAction (config s2)) (bBtnHoldAction (config s2)) s2).
  destruct (handleNormalBtnEvent_view (status (wifi i)) (BtnB i) (t_btnB i)
              (bBtnClickAction (config s2)) (bBtnHoldAction (config s2)) s2)
    as (_ & P3 & _).
  pose proof (handleNormalBtnEvent_lastActiveTime (status (wifi i)) (BtnB i)
                (t_btnB i) (bBtnClickAction (config s2))
                (bBtnHoldAction (config s2)) s2) as A3.
  fold s3 in P3, A3.
  intros Hact. rewrite handlePWRBtnEvent_lastActiveTime.
  rewrite (isPWRBtnClicked_fst _ _ s s3) by congruence.
  destruct (fst (isPWRBtnClicked (pwrPinLow i) (t_pwr i) s)); [tauto|].
  rewrite A3. destruct (is_connected (status (wifi i))); [|discriminate].
  cbn [andb orb] in *.
  destruct (pressed (BtnB i)); [tauto|].
  rewrite A2. cbn [andb].
  destruct (pressed (BtnA i)); [tauto|discriminate].
Qed.

Lemma loop_unfold (i : Inputs) (s : State) :
  loop i s
  = (if halted (handleAutoShutdown (t_shutdown i) (before_idle_check i s))
     then handleAutoShutdown (t_shutdown i) (before_idle_check i s)
     else handleClient (request i)
            (handleAutoShutdown (t_shutdown i) (before_idle_check i s))).
Proof. reflexivity. Qed.

Lemma handleClient_view (r : option Request) (s : State) :
  onCountdown (handleClient r s) = onCountdown s
  /\ turnOnScreen (handleClient r s) = turnOnScreen s
  /\ lastRemainingSeconds (handleClient r s) = lastRemainingSeconds s.
Proof.
  unfold handleClient, handleRoot, handleSave, saveConfig.
  destruct r as [q|]; [|repeat split; reflexivity].
  split_ifs; repeat split; reflexivity.
Qed.

(** ** The three branches of [handleAutoShutdown] *)

Lemma handleAutoShutdown_active (now : Z) (s : State) :
  usub now (lastActiveTime s) < shutdown_threshold (config s) ->
  usub now (lastActiveTime s) < countdown_threshold (config s) ->
  handleAutoShutdown now s
  = (if onCountdown s
     then set_onCountdown false
            (set_turnOnScreen (screenStateBeforeCountdown s) s)
     else s).
Proof.
  intros H1 H2. unfold handleAutoShutdown.
  apply Z.leb_gt in H1. apply Z.leb_gt in H2. now rewrite H1, H2.
Qed.

Lemma handleAutoShutdown_countdown (now : Z) (s : State) :
  usub now (lastActiveTime s) < shutdown_threshold (config s) ->
  countdown_threshold (config s) <= usub now (lastActiveTime s) ->
  handleAutoShutdown now s
  = handleShutdownCountdown now (usub now (lastActiveTime s)) s.
Proof.
  intros H1 H2. unfold handleAutoShutdown.
  apply Z.leb_gt in H1. apply Z.leb_le in H2. now rewrite H1, H2.
Qed.

(** With a sane record, an idle time whose whole seconds lie in the
    countdown window is handed to the countdown handler. *)
Lemma handleAutoShutdown_in_window (now : Z) (s : State) :
  0 <= countdownTime (config s) <= autoShutdownTime (config s) ->
  autoShutdownTime (config s) * 1000 <= INT_MAX ->
  autoShutdownTime (config s) - countdownTime (config s)
    <= usub now (lastActiveTime s) / 1000 < autoShutdownTime (config s) ->
  handleAutoShutdown now s
  = handleShutdownCountdown now (usub now (lastActiveTime s)) s.
Proof.
  intros Hc Ha Hw.
  assert (Hi : 0 <= usub now (lastActiveTime s))
    by (unfold usub; apply to_ulong_range).
  apply (countdown_window (config s) _ Hc Ha Hi) in Hw.
  apply handleAutoShutdown_countdown; tauto.
Qed.

Lemma handleShutdownCountdown_flags (currentTime inactiveTime : Z) (s : State) :
  shutdownCountdownScreen (config s) = true ->
  turnOnScreen (handleShutdownCountdown currentTime inactiveTime s) = true
  /\ onCountdown (handleShutdownCountdown currentTime inactiveTime s) = true
  /\ halted (handleShutdownCountdown currentTime inactiveTime s) = halted s
  /\ screenStateBeforeCountdown
       (handleShutdownCountdown currentTime inactiveTime s)
     = (if onCountdown s then screenStateBeforeCountdown s else turnOnScreen s).
Proof.
  intros Hp. unfold handleShutdownCountdown, displayText. rewrite Hp.
  destruct (onCountdown s); proj_simpl; split_ifs; repeat split; reflexivity.
Qed.

(** Without the prompt the countdown handler does nothing at all. *)
Lemma handleShutdownCountdown_no_prompt
  (currentTime inactiveTime : Z) (s : State) :
  shutdownCountdownScreen (config s) = false ->
  handleShutdownCountdown currentTime inactiveTime s = s.
Proof. intros Hp. unfold handleShutdownCountdown. now rewrite Hp. Qed.

(** ** Leaving the countdown *)

(** From a state in the countdown phase: activity is registered and the
    evaluation finds the idle time below both thresholds. *)
Lemma leaves_countdown_below_thresholds (i : Inputs) (s : State) :
  onCountdown s = true ->
  activity i s = true ->
  idle_time i s < countdown_threshold (config s) ->
  idle_time i s < shutdown_threshold (config s) ->
  onCountdown (loop i s) = false
  /\ turnOnScreen (loop i s) = screenStateBeforeCountdown s
  /\ lastRemainingSeconds (loop i s) = -1.
Proof.
  intros Hcd Hact Hc Hs. unfold idle_time in Hc, Hs.
  destruct (before_idle_check_view i s) as (C & O & B & R).
  specialize (R Hact).
  rewrite loop_unfold. rewrite <- C in Hc, Hs.
  rewrite (handleAutoShutdown_active _ _ Hs Hc). rewrite O, Hcd, B.
  destruct (handleClient_view (request i)
              (set_onCountdown false
                 (set_turnOnScreen (screenStateBeforeCountdown s)
                    (before_idle_check i s)))) as (V1 & V2 & V3).
  destruct (halted _); [|rewrite V1, V2, V3]; proj_simpl;
    repeat split; (reflexivity || exact R).
Qed.

(** C5, as amended.  From every state in the countdown phase, a pass of
    [loop] in which the dispatcher registers activity (a click or hold
    of A or B while connected, or a click of the power key) and which
    reaches its idle-timer evaluation before the countdown start and the
    shutdown time have elapsed again leaves the phase: [onCountdown] is
    false, [turnOnScreen] is exactly [screenStateBeforeCountdown], the
    value saved when the countdown was entered, and
    [lastRemainingSeconds] is -1. *)
Theorem activity_leaves_countdown (i : Inputs) (s : State) :
  onCountdown s = true ->
  activity i s = true ->
  pass_within i (countdown_threshold (config s)) ->
  pass_within i (shutdown_threshold (config s)) ->
  onCountdown (loop i s) = false
  /\ turnOnScreen (loop i s) = screenStateBeforeCountdown s
  /\ lastRemainingSeconds (loop i s) = -1.
Proof.
  intros Hcd Hact (CA & CB & CP) (SA & SB & SP).
  apply leaves_countdown_below_thresholds; try assumption; unfold idle_time;
    destruct (before_idle_check_lastActiveTime i s Hact) as [E|[E|E]];
    rewrite E; assumption.
Qed.

(** The device counts down with the screen forced on, the screen having
    been off before; button A is clicked and the idle timer is evaluated
    100 ms later: the countdown is left and the screen is off again. *)
Lemma activity_leaves_countdown_witness :
  onCountdown (loop (click_A_pass home_wifi 595000 595100) counting_down)
  = false
  /\ turnOnScreen (loop (click_A_pass home_wifi 595000 595100) counting_down)
     = false
  /\ lastRemainingSeconds
       (loop (click_A_pass home_wifi 595000 595100) counting_down)
     = -1.
Proof.
  refine (activity_leaves_countdown (click_A_pass home_wifi 595000 595100)
            counting_down eq_refl eq_refl _ _);
    repeat split; vm_compute; reflexivity.
Defined.

(** C5 as stated fails: a press of A or B without a connection is
    dropped by [handleNormalBtnEvent] before [lastActiveTime] is written.
    The device counts down, the screen having been off before; A is
    clicked while the radio is disconnected and the idle timer is
    evaluated 100 ms later.  The countdown goes on: [onCountdown] stays
    true, [turnOnScreen] is true and not the saved false,
    [lastRemainingSeconds] is 5 and not -1, [lastActiveTime] is what it
    was, and the pass at 600 s powers the device off. *)
Lemma disconnected_press_keeps_countdown :
  onCountdown counting_down = true
  /\ screenStateBeforeCountdown counting_down = false
  /\ pressed (BtnA (click_A_pass no_wifi 595000 595100)) = true
  /\ onCountdown (loop (click_A_pass no_wifi 595000 595100) counting_down)
     = true
  /\ turnOnScreen (loop (click_A_pass no_wifi 595000 595100) counting_down)
     = true
  /\ lastRemainingSeconds
       (loop (click_A_pass no_wifi 595000 595100) counting_down) = 5
  /\ lastActiveTime (loop (click_A_pass no_wifi 595000 595100) counting_down)
     = lastActiveTime counting_down
  /\ halted (loop (idle_pass no_wifi 600000)
               (loop (click_A_pass no_wifi 595000 595100) counting_down))
     = true.
Proof. repeat split; vm_compute; reflexivity. Qed.

(** The bound on the pass is needed as well.  With a countdown as long
    as the shutdown time the countdown threshold is 0: a click of A on a
    connected device is registered as activity, and the idle-timer
    evaluation of the same pass, at an idle time of 0, is in the
    countdown window again. *)
Lemma registered_click_keeps_countdown_at_once :
  countdown_threshold (config counting_down_at_once) = 0
  /\ onCountdown counting_down_at_once = true
  /\ activity (click_A_pass home_wifi 5000 5000) counting_down_at_once = true
  /\ idle_time (click_A_pass home_wifi 5000 5000) counting_down_at_once = 0
  /\ onCountdown (loop (click_A_pass home_wifi 5000 5000)
                    counting_down_at_once) = true
  /\ turnOnScreen (loop (click_A_pass home_wifi 5000 5000)
                     counting_down_at_once) = true.
Proof. repeat split; vm_compute; reflexivity. Qed.

(** The countdown handler saves the screen flag when the phase is
    entered, and keeps the saved value while the phase lasts. *)
Lemma countdown_entry_saves_screen (now : Z) (s : State) :
  shutdownCountdownScreen (config s) = true ->
  usub now (lastActiveTime s) < shutdown_threshold (config s) ->
  countdown_threshold (config s) <= usub now (lastActiveTime s) ->
  screenStateBeforeCountdown (handleAutoShutdown now s)
  = (if onCountdown s then screenStateBeforeCountdown s else turnOnScreen s).
Proof.
  intros Hp H1 H2. rewrite handleAutoShutdown_countdown by assumption.
  now apply handleShutdownCountdown_flags.
Qed.

(** ** The screen flag during the countdown *)




(** ** A countdown longer than the shutdown time *)




(** ** No request without a connection *)

Ltac http_quiet :=
  split_ifs; rewrite ?filter_app; cbn [filter is_http];
  rewrite ?app_nil_r; reflexivity.

Lemma handleScreenSwitch_http (w : WiFi) (battery now : Z) (s : State) :
  filter is_http (trace (handleScreenSwitch w battery now s))
  = filter is_http (trace s).
Proof.
  unfold handleScreenSwitch, drawInfoScreen, displayText. http_quiet.
Qed.

Lemma handlePWRBtnEvent_http (pinLow : bool) (now nowActive : Z) (s : State) :
  filter is_http (trace (handlePWRBtnEvent pinLow now nowActive s))
  = filter is_http (trace s).
Proof.
  unfold handlePWRBtnEvent, isPWRBtnClicked. http_quiet.
Qed.

Lemma handleAutoShutdown_http (now : Z) (s : State) :
  filter is_http (trace (handleAutoShutdown now s))
  = filter is_http (trace s).
Proof.
  unfold handleAutoShutdown, handleShutdownCountdown, displayText.
  destruct (onCountdown s) eqn:E; proj_simpl; http_quiet.
Qed.

Lemma handleClient_http (r : option Request) (s : State) :
  filter is_http (trace (handleClient r s)) = filter is_http (trace s).
Proof.
  unfold handleClient, handleRoot, handleSave, saveConfig.
  destruct r as [q|]; [|reflexivity]. http_quiet.
Qed.

(** C3, for page-turner.ino.  In a pass of [loop] in which
    [WiFi.status()] is not [WL_CONNECTED], whatever the buttons report,
    the HTTP client is not called: the calls on it in the trace are those
    that were there before the pass. *)
Theorem disconnected_pass_sends_nothing (i : Inputs) (s : State) :
  is_connected (status (wifi i)) = false ->
  filter is_http (trace (loop i s)) = filter is_http (trace s).
Proof.
  intros Hw. rewrite loop_unfold.
  assert (Hb : filter is_http (trace (before_idle_check i s))
               = filter is_http (trace s)).
  { unfold before_idle_check.
    rewrite handlePWRBtnEvent_http.
    rewrite !handleNormalBtnEvent_not_connected by exact Hw.
    apply handleScreenSwitch_http. }
  destruct (halted _); [|rewrite handleClient_http];
    now rewrite handleAutoShutdown_http.
Qed.

(** Button A is clicked while the device has no connection: no call on
    the HTTP client. *)
Lemma disconnected_pass_sends_nothing_witness :
  filter is_http
    (trace (loop (click_A_pass no_wifi 1000 1100) (running default_config true)))
  = [].
Proof.
  exact (disconnected_pass_sends_nothing (click_A_pass no_wifi 1000 1100)
           (running default_config true) eq_refl).
Defined.

(** The same click with a connection does send. *)
Lemma connected_click_sends :
  filter is_http
    (trace (loop (click_A_pass home_wifi 1000 1100) (running default_config true)))
  = [HttpBegin "http://192.168.1.100:8080/koreader/event/GotoViewRel/1";
     HttpGET; HttpEnd].
Proof. vm_compute. reflexivity. Qed.

End IdleTimerFacts.

(* ================================================================== *)
(** * The second sketch *)

Module Part000Facts.

Import ArduinoFacts Part000.

(** ** Loading the record *)

(** The record a mismatching magic is replaced with. *)
Lemma saved_initial_config :
  with_magic CONFIG_MAGIC initial_config
  = {| magic := CONFIG_MAGIC;
       ssid := strncpy "M5StickC-Plus2" 32;
       password := strncpy "12345678" 64;
       targetIP := strncpy "192.168.2.99" 16;
       targetPort := 8080 |}.
Proof. reflexivity. Qed.

(** In this sketch a record whose magic is not [CONFIG_MAGIC] is replaced
    with the defaults, which are persisted at once; the next boot reads
    them back and keeps them. *)
Lemma loadConfig_bad_magic (s : State) :
  magic (eeprom s) <> CONFIG_MAGIC ->
  deviceConfig (loadConfig s) = with_magic CONFIG_MAGIC initial_config
  /\ eeprom (loadConfig s) = with_magic CONFIG_MAGIC initial_config
  /\ deviceConfig (loadConfig (boot (eeprom (loadConfig s))))
     = with_magic CONFIG_MAGIC initial_config.
Proof.
  intros Hm. apply Z.eqb_neq in Hm.
  assert (E : loadConfig s
              = saveConfig (set_deviceConfig initial_config
                              (set_deviceConfig (eeprom s) s))).
  { unfold loadConfig. cbn [deviceConfig set_deviceConfig]. now rewrite Hm. }
  rewrite E. repeat split; reflexivity.
Qed.

Lemma loadConfig_good_magic (s : State) :
  magic (eeprom s) = CONFIG_MAGIC ->
  deviceConfig (loadConfig s) = eeprom s /\ eeprom (loadConfig s) = eeprom s.
Proof.
  intros Hm. apply Z.eqb_eq in Hm.
  unfold loadConfig. cbn [deviceConfig set_deviceConfig].
  rewrite Hm. split; reflexivity.
Qed.

Lemma loadConfig_first_boot :
  deviceConfig first_boot = with_magic CONFIG_MAGIC initial_config
  /\ eeprom first_boot = with_magic CONFIG_MAGIC initial_config.
Proof. split; reflexivity. Qed.

(** ** The page-turn request *)

(** This sketch has two actions, a page forward and a page back; the
    URLs are those of actions 1 and 0 of page-turner.ino. *)
Lemma sendTurnPageRequest_url
  (turnPageSize httpCode : Z) (s : State) (H : string) :
  cstr (targetIP (deviceConfig s)) = Some H ->
  filter is_http (trace (sendTurnPageRequest turnPageSize httpCode s))
  = (filter is_http (trace s)
     ++ [HttpBegin ("http://" ++ H ++ ":"
                    ++ String_of_int (targetPort (deviceConfig s))
                    ++ "/koreader/event/GotoViewRel/"
                    ++ String_of_int turnPageSize);
         HttpGET; HttpEnd])%list.
Proof.
  intros HH. apply String_of_chars_cstr in HH.
  unfold sendTurnPageRequest. rewrite HH.
  destruct (0 <? httpCode); cbn [trace emit];
    rewrite !filter_app; cbn [filter is_http];
    rewrite <- !app_assoc; reflexivity.
Qed.

(** ** The countdown *)

(** In the last ten seconds before the shutdown the value shown is the
    shutdown time minus the idle time, in whole seconds. *)
Lemma remaining_last_ten_seconds (inactiveTime : Z) :
  COUNTDOWN_START <= inactiveTime < SHUTDOWN_TIMEOUT ->
  remaining inactiveTime = SHUTDOWN_TIMEOUT / 1000 - inactiveTime / 1000.
Proof.
  unfold remaining, usub, COUNTDOWN_START, SHUTDOWN_TIMEOUT. intros H.
  change (600000 / 1000) with 600.
  rewrite (to_ulong_id (inactiveTime - _)) by (unfold is_ulong; lia).
  assert (E : (inactiveTime - (600000 - 10000)) / 1000
              = inactiveTime / 1000 - 590).
  { replace (inactiveTime - (600000 - 10000))
      with (inactiveTime + (-590) * 1000) by lia.
    rewrite Z.div_add by lia. lia. }
  rewrite E.
  assert (590 <= inactiveTime / 1000 < 600).
  { split; [apply Z.div_le_lower_bound; lia
           |apply Z.div_lt_upper_bound; lia]. }
  rewrite to_ulong_id by (unfold is_ulong; lia).
  rewrite to_int_id by (unfold is_int, INT_MIN, INT_MAX; lia). lia.
Qed.

(** ** The save handlers *)

Lemma store_form_port (f : Form) (s : State) :
  numeric (arg f "port") = false ->
  targetPort (deviceConfig (store_form f s)) = 0
  /\ targetPort (eeprom (store_form f s)) = 0.
Proof.
  intros Hn.
  change (to_uint16 (toInt (arg f "port")) = 0
          /\ to_uint16 (toInt (arg f "port")) = 0).
  rewrite (toInt_not_numeric _ Hn). split; reflexivity.
Qed.

Lemma ap_config_port (f : Form) (s : State) :
  numeric (arg f "port") = false ->
  targetPort (deviceConfig (ap_config f s)) = 0
  /\ targetPort (eeprom (ap_config f s)) = 0
  /\ halted (ap_config f s) = true.
Proof.
  intros Hn. destruct (store_form_port f s Hn) as [A B].
  repeat split; assumption.
Qed.

(** The same [strncpy] pattern as in page-turner.ino: a password of 64
    characters or more fills the 64-byte array and is left without a
    terminator. *)
Lemma store_form_password_long (f : Form) (s : State) :
  (64 <= strlen (arg f "pass"))%nat ->
  cstr (password (deviceConfig (store_form f s))) = None.
Proof.
  intros H. change (cstr (strncpy (arg f "pass") 64) = None).
  now apply cstr_strncpy_long.
Qed.

(** ** A press without a connection *)

(** C3 as stated fails on this sketch: its [loop] does not look at
    [WiFi.status()] before [sendTurnPageRequest], so a press of button A
    without a connection calls the HTTP client all the same. *)
Lemma disconnected_press_sends :
  is_connected (status (wifi (press_A_pass no_wifi 1000))) = false
  /\ BtnA_wasPressed (press_A_pass no_wifi 1000) = true
  /\ filter is_http (trace (loop (press_A_pass no_wifi 1000) first_boot))
     = [HttpBegin "http://192.168.2.99:8080/koreader/event/GotoViewRel/1";
        HttpGET; HttpEnd].
Proof. repeat split; vm_compute; reflexivity. Qed.

End Part000Facts.

(* ================================================================== *)
(** * page-turner.ino: further properties of the record and the form *)

Module RecordFacts.

Import ArduinoFacts PageTurner PageTurnerFacts IdleTimerFacts.

(** ** Storage *)

(** X1.  What [saveConfig] writes is what the next boot runs on: after a
    restart [loadConfig] brings back the saved record, leaves the storage
    as it is, and arms the delayed screen-off exactly when the record
    does not ask to keep the screen on.  In particular the record a save
    request builds is the record of the next boot. *)
Theorem save_load_round_trip (f : Form) (s : State) :
  config (loadConfig (boot (eeprom (saveConfig s)))) = config s
  /\ eeprom (loadConfig (boot (eeprom (saveConfig s)))) = config s
  /\ delayToTurnOffScreen (loadConfig (boot (eeprom (saveConfig s))))
     = negb (keepScreenOn (config s))
  /\ config (loadConfig (boot (eeprom (handleSave f s))))
     = config (handleSave f s).
Proof.
  assert (D : forall t : State,
             delayToTurnOffScreen (loadConfig t)
             = negb (keepScreenOn (eeprom t))).
  { intros t. unfold loadConfig. cbn [config set_config].
    destruct (strcmp_eq (ssid (eeprom t)) "defaultSSID"); reflexivity. }
  destruct (loadConfig_keeps_image (boot (eeprom (saveConfig s)))) as [A B].
  destruct (loadConfig_keeps_image (boot (eeprom (handleSave f s)))) as [C _].
  rewrite A, B, C, D. repeat split; reflexivity.
Qed.

(** ** The save form *)

Lemma arg_missing (f : Form) (name : string) :
  hasArg f name = false -> arg f name = EmptyString.
Proof.
  induction f as [|[k v] rest IH]; cbn [hasArg arg]; [reflexivity|].
  destruct (String.eqb k name); [discriminate|exact IH].
Qed.

Lemma handleSave_text_stored (fld : TextField) (f : Form) (s : State) :
  text_stored fld (config (handleSave f s))
  = strncpy (arg f (text_field_name fld)) (capacity fld).
Proof. destruct fld; reflexivity. Qed.

Lemma strncpy_empty (n : nat) : strncpy EmptyString n = repeat NUL n.
Proof. induction n as [|k IH]; cbn [strncpy repeat]; [|rewrite IH]; reflexivity. Qed.

(** X2.  The save handler rebuilds the whole record from the form: a
    text field the request does not carry is stored as the empty string
    (the array is all NUL), whatever the record held before. *)
Theorem handleSave_missing_text (fld : TextField) (f : Form) (s : State) :
  hasArg f (text_field_name fld) = false ->
  text_stored fld (config (handleSave f s)) = repeat NUL (capacity fld)
  /\ String_of_chars (text_stored fld (config (handleSave f s))) = EmptyString.
Proof.
  intros Hm. rewrite handleSave_text_stored, (arg_missing _ _ Hm).
  rewrite strncpy_empty. split; [reflexivity|]. now destruct fld.
Qed.

Lemma handleSave_missing_text_witness :
  ssid (config (handleSave [("password", "secret")] (boot default_config)))
  = repeat NUL 32.
Proof.
  exact (proj1 (handleSave_missing_text F_ssid [("password", "secret")]
                  (boot default_config) eq_refl)).
Defined.

(** X3.  Every [int] submitted in decimal in one of the seven numeric
    fields is stored as it is, in memory and in storage: the handler
    applies no range (a port of 70000 or a negative time is accepted). *)
Theorem handleSave_number_round_trip
  (fld : NumericField) (v : Z) (f : Form) (s : State) :
  is_int v ->
  arg f (field_name fld) = String_of_int v ->
  stored fld (config (handleSave f s)) = v
  /\ stored fld (eeprom (handleSave f s)) = v.
Proof.
  intros Hv Ha. rewrite handleSave_config, handleSave_stored, Ha.
  rewrite toInt_String_of_int by exact Hv. split; reflexivity.
Qed.

Lemma handleSave_number_round_trip_witness :
  koReaderPort
    (config (handleSave [("koReaderPort", "70000")] (boot default_config)))
  = 70000.
Proof.
  refine (proj1 (handleSave_number_round_trip F_koReaderPort 70000
                   [("koReaderPort", "70000")] (boot default_config) _ eq_refl)).
  unfold is_int, INT_MIN, INT_MAX. lia.
Defined.

Lemma String_of_chars_strncpy_short (src : string) (n : nat) :
  (strlen src < n)%nat -> String_of_chars (strncpy src n) = c_str src.
Proof.
  intros H. apply String_of_chars_cstr. now apply cstr_strncpy_short.
Qed.

(** X4.  A text field shorter than its array comes back as it was
    submitted: read as a C string, the stored array is the submitted
    value (up to its first NUL); and the array keeps its size whatever is
    submitted. *)
Theorem handleSave_text_round_trip (fld : TextField) (f : Form) (s : State) :
  (strlen (arg f (text_field_name fld)) < capacity fld)%nat ->
  String_of_chars (text_stored fld (config (handleSave f s)))
  = c_str (arg f (text_field_name fld))
  /\ cstr (text_stored fld (config (handleSave f s)))
     = Some (c_str (arg f (text_field_name fld)))
  /\ List.length (text_stored fld (config (handleSave f s))) = capacity fld.
Proof.
  intros H. rewrite handleSave_text_stored.
  rewrite String_of_chars_strncpy_short, cstr_strncpy_short by exact H.
  rewrite strncpy_length. repeat split; reflexivity.
Qed.

Lemma handleSave_text_round_trip_witness :
  String_of_chars
    (koReaderIP
       (config (handleSave [("koReaderIP", "10.0.0.7")] (boot default_config))))
  = "10.0.0.7".
Proof.
  refine (proj1 (handleSave_text_round_trip F_koReaderIP
                   [("koReaderIP", "10.0.0.7")] (boot default_config) _)).
  cbn. lia.
Defined.

End RecordFacts.

(* ================================================================== *)
(** * page-turner.ino: further properties of the display and the keys *)

Module ScreenFacts.

Import ArduinoFacts PageTurner PageTurnerFacts IdleTimerFacts.

(** ** Drawing *)

(** X5.  [displayText] suppresses redundant drawing: showing a text a
    second time changes nothing and draws nothing, and a text that is
    already the last one shown is not drawn at all. *)
Theorem displayText_twice (text : string) (s : State) :
  displayText text (displayText text s) = displayText text s
  /\ (lastDisplayedText s = text -> displayText text s = s)
  /\ lastDisplayedText (displayText text s) = text.
Proof.
  unfold displayText.
  destruct (String.eqb text (lastDisplayedText s)) eqn:E; proj_simpl.
  - rewrite E. proj_simpl. apply String.eqb_eq in E.
    repeat split; congruence.
  - rewrite String.eqb_refl. proj_simpl. repeat split.
    intros H. apply String.eqb_neq in E. congruence.
Qed.

Lemma displayText_twice_witness :
  displayText "A" (displayText "A" (running default_config true))
  = displayText "A" (running default_config true).
Proof.
  exact (proj1 (displayText_twice "A" (running default_config true))).
Defined.

Lemma drawInfoScreen_lastBatteryLevel (w : WiFi) (b : Z) (s : State) :
  lastBatteryLevel (drawInfoScreen w b s)
  = (if (lastBatteryLevel s <? 0)
        || (batteryThreshold <=? Z.abs (isub b (lastBatteryLevel s)))
     then b else lastBatteryLevel s).
Proof.
  unfold drawInfoScreen, displayText. proj_simpl.
  destruct ((lastBatteryLevel s <? 0)
            || (batteryThreshold <=? Z.abs (isub b (lastBatteryLevel s))));
    proj_simpl; split_ifs; reflexivity.
Qed.

(** X6.  The battery level on the info screen follows the reading with
    a hysteresis of [batteryThreshold]: after [drawInfoScreen] the level
    kept for display is a valid percentage less than 5 away from the
    reading, and it is the old one unless the reading replaced it. *)
Theorem drawInfoScreen_battery (w : WiFi) (b : Z) (s : State) :
  0 <= b <= 100 ->
  -1 <= lastBatteryLevel s <= 100 ->
  0 <= lastBatteryLevel (drawInfoScreen w b s) <= 100
  /\ Z.abs (b - lastBatteryLevel (drawInfoScreen w b s)) < batteryThreshold
  /\ (lastBatteryLevel (drawInfoScreen w b s) = b
      \/ lastBatteryLevel (drawInfoScreen w b s) = lastBatteryLevel s).
Proof.
  intros Hb Hl. rewrite drawInfoScreen_lastBatteryLevel.
  unfold isub, batteryThreshold.
  rewrite to_int_id by (unfold is_int, INT_MIN, INT_MAX; lia).
  destruct (lastBatteryLevel s <? 0) eqn:E0; cbn [orb].
  - repeat split; lia.
  - apply Z.ltb_ge in E0.
    destruct (5 <=? Z.abs (b - lastBatteryLevel s)) eqn:E1.
    + repeat split; lia.
    + apply Z.leb_gt in E1. repeat split; lia.
Qed.

Lemma drawInfoScreen_battery_witness :
  Z.abs (78 - lastBatteryLevel
                (drawInfoScreen home_wifi 78 (running default_config true)))
  < batteryThreshold.
Proof.
  refine (proj1 (proj2 (drawInfoScreen_battery home_wifi 78
                          (running default_config true) _ _))).
  - lia.
  - simpl. lia.
Defined.

(** X7.  What [handleScreenSwitch] draws: when it leaves the screen
    flag off it puts the display to sleep and draws nothing; when the
    flag is on during the countdown it wakes the display and draws
    nothing, so the info screen never replaces the countdown text. *)
Theorem handleScreenSwitch_drawing (w : WiFi) (battery now : Z) (s : State) :
  (turnOnScreen (handleScreenSwitch w battery now s) = false ->
   trace (handleScreenSwitch w battery now s)
   = (trace s ++ [DisplaySleep])%list)
  /\ (turnOnScreen (handleScreenSwitch w battery now s) = true ->
      onCountdown s = true ->
      trace (handleScreenSwitch w battery now s)
      = (trace s ++ [DisplayWakeup])%list).
Proof.
  unfold handleScreenSwitch.
  destruct (delayToTurnOffScreen s && negb (keepScreenOn (config s))
            && (5000 <? usub now (lastActiveTime s))); proj_simpl.
  - split; [reflexivity|discriminate].
  - destruct (turnOnScreen s) eqn:T; proj_simpl.
    + split.
      * intros H. exfalso. revert H.
        destruct (onCountdown s); proj_simpl; [now rewrite T|].
        unfold drawInfoScreen, displayText. proj_simpl.
        split_ifs; congruence.
      * intros _ O. now rewrite O.
    + split; [reflexivity|]. now rewrite T.
Qed.

Lemma handleScreenSwitch_drawing_witness :
  trace (handleScreenSwitch home_wifi 80 595000 counting_down)
  = [DisplayWakeup].
Proof.
  exact (proj2 (handleScreenSwitch_drawing home_wifi 80 595000 counting_down)
           eq_refl eq_refl).
Defined.

(** ** The delayed screen-off *)

(** X8.  The delayed screen-off fires exactly when it is armed, the
    record does not keep the screen on, and more than 5000 ms have passed
    since the last activity: then the screen flag goes off, the delay is
    disarmed and the display sleeps; otherwise [handleScreenSwitch]
    leaves both flags as they were. *)
Theorem delayed_screen_off (w : WiFi) (battery now : Z) (s : State) :
  delayToTurnOffScreen s = true ->
  keepScreenOn (config s) = false ->
  (5000 < usub now (lastActiveTime s) ->
   turnOnScreen (handleScreenSwitch w battery now s) = false
   /\ delayToTurnOffScreen (handleScreenSwitch w battery now s) = false
   /\ trace (handleScreenSwitch w battery now s)
      = (trace s ++ [DisplaySleep])%list)
  /\ (usub now (lastActiveTime s) <= 5000 ->
      turnOnScreen (handleScreenSwitch w battery now s) = turnOnScreen s
      /\ delayToTurnOffScreen (handleScreenSwitch w battery now s) = true).
Proof.
  intros Hd Hk. unfold handleScreenSwitch. rewrite Hd, Hk. cbn [andb negb].
  split; intros Ht.
  - apply Z.ltb_lt in Ht. rewrite Ht. proj_simpl. repeat split.
  - apply Z.ltb_ge in Ht. rewrite Ht.
    destruct (turnOnScreen s) eqn:T; proj_simpl; [|split; assumption].
    unfold drawInfoScreen, displayText.
    destruct (onCountdown s); proj_simpl; split_ifs; split; assumption.
Qed.

Lemma delayed_screen_off_witness :
  turnOnScreen
    (handleScreenSwitch home_wifi 80 5001
       (loadConfig (boot config_screen_off))) = false.
Proof.
  refine (proj1 (proj1 (delayed_screen_off home_wifi 80 5001
                          (loadConfig (boot config_screen_off))
                          eq_refl eq_refl) _)).
  vm_compute. reflexivity.
Defined.

End ScreenFacts.

(* ================================================================== *)
(** * page-turner.ino: further properties of the keys and the idle timer *)

Module PhaseFacts.

Import ArduinoFacts PageTurner PageTurnerFacts IdleTimerFacts.

(** ** The power key *)

Lemma hold_power_key_start (more : list Z) :
  forall s : State,
    pwrBtnpressStartTime s <> 0 ->
    pwrBtnpressStartTime (hold_power_key more s) = pwrBtnpressStartTime s.
Proof.
  induction more as [|t rest IH]; intros s Hs; [reflexivity|].
  cbn [hold_power_key]. unfold isPWRBtnClicked at 1.
  apply Z.eqb_neq in Hs. rewrite Hs. cbn [snd].
  apply IH. now apply Z.eqb_neq.
Qed.

(** X9.  One press of the power key, seen over several passes: the
    first reading with the pin low (at a clock value [t0] other than 0)
    is kept as the start of the press however long the key is held; the
    release at [t1] reports a click exactly when [t1 - t0] (on
    [unsigned long]) is below [longPressDuration], clears the start, and
    a further reading with the key up reports nothing. *)
Theorem power_key_click_detection
  (t0 t1 t2 : Z) (more : list Z) (s : State) :
  pwrBtnpressStartTime s = 0 ->
  t0 <> 0 ->
  pwrBtnpressStartTime (hold_power_key (t0 :: more) s) = t0
  /\ fst (isPWRBtnClicked false t1 (hold_power_key (t0 :: more) s))
     = (usub t1 t0 <? longPressDuration)
  /\ pwrBtnpressStartTime
       (snd (isPWRBtnClicked false t1 (hold_power_key (t0 :: more) s))) = 0
  /\ fst (isPWRBtnClicked false t2
            (snd (isPWRBtnClicked false t1 (hold_power_key (t0 :: more) s))))
     = false.
Proof.
  intros H0 Ht.
  assert (E : pwrBtnpressStartTime (hold_power_key (t0 :: more) s) = t0).
  { cbn [hold_power_key]. unfold isPWRBtnClicked at 1.
    rewrite H0. cbn [Z.eqb snd]. now rewrite hold_power_key_start. }
  split; [exact E|].
  set (h := hold_power_key (t0 :: more) s) in *.
  assert (R : isPWRBtnClicked false t1 h
              = (usub t1 t0 <? longPressDuration,
                 set_pwrBtnpressStartTime 0 h)).
  { unfold isPWRBtnClicked. rewrite E.
    apply Z.eqb_neq in Ht. rewrite Ht. cbn [negb].
    now destruct (usub t1 t0 <? longPressDuration). }
  rewrite R. repeat split.
Qed.

Lemma power_key_click_detection_witness :
  fst (isPWRBtnClicked false 1300
         (hold_power_key [1000; 1100; 1200] (running default_config true)))
  = true.
Proof.
  refine (proj1 (proj2 (power_key_click_detection 1000 1300 1400 [1100; 1200]
                          (running default_config true) eq_refl _))).
  discriminate.
Defined.

(** ** The normal keys *)

(** X10.  A press of A or B on a connected device sends what
    [sendRequest] sends for one action, once: the click action when the
    key reports a click (also when it reports a hold as well), the hold
    action otherwise. *)
Theorem press_sends_one_action
  (st : wl_status) (btn : Button_Class) (now ca ha : Z) (s : State) :
  is_connected st = true ->
  pressed btn = true ->
  filter is_http (trace (handleNormalBtnEvent st btn now ca ha s))
  = filter is_http
      (trace (sendRequest st (if wasClicked btn then ca else ha) s)).
Proof.
  intros Hc Hp. unfold handleNormalBtnEvent, pressed in *.
  rewrite Hc, Hp. cbn [negb].
  assert (G : forall (a : Z) (t : State),
             sendRequest st a t
             = emit (trace (sendRequest st a
                              (set_config (config t) (boot (config t))))) t).
  { intros a t.
    assert (N : t = emit [] t)
      by (destruct t; unfold emit; cbn; now rewrite app_nil_r).
    unfold sendRequest. rewrite Hc. cbn [negb].
    destruct a as [|p|p]; [reflexivity| |exact N].
    destruct p as [[p|p|]|[p|p|]|]; try exact N; reflexivity. }
  destruct (wasClicked btn), (wasHold btn); try discriminate;
    rewrite G; rewrite (G _ s); destruct (beepOnPress (config s)); proj_simpl;
    rewrite ?filter_app; cbn [filter is_http]; now rewrite ?app_nil_r.
Qed.

Lemma press_sends_one_action_witness :
  filter is_http
    (trace (handleNormalBtnEvent WL_CONNECTED (mkButton true true) 1000 1 2
              (running default_config true)))
  = [HttpBegin "http://192.168.1.100:8080/koreader/event/GotoViewRel/1";
     HttpGET; HttpEnd].
Proof.
  exact (press_sends_one_action WL_CONNECTED (mkButton true true) 1000 1 2
           (running default_config true) eq_refl eq_refl).
Defined.

(** ** The three phases of the idle timer *)

Lemma sane_thresholds (c : Config) :
  sane c ->
  shutdown_threshold c = autoShutdownTime c * 1000
  /\ countdown_threshold c = (autoShutdownTime c - countdownTime c) * 1000.
Proof.
  unfold sane, INT_MAX. intros [Hc Ha]. split.
  - apply shutdown_threshold_exact; unfold INT_MAX; lia.
  - apply countdown_threshold_exact; unfold is_int, INT_MIN, INT_MAX; lia.
Qed.

(** X11.  With a sane record the idle time in whole seconds [d] decides
    the phase: below [autoShutdownTime - countdownTime] the evaluation
    changes nothing (or ends a countdown, restoring the screen flag);
    from there up to [autoShutdownTime] it runs the countdown handler;
    from [autoShutdownTime] on it powers the device off and does nothing
    else. *)
Theorem idle_phases (now : Z) (s : State) :
  sane (config s) ->
  (usub now (lastActiveTime s) / 1000
     < autoShutdownTime (config s) - countdownTime (config s) ->
   handleAutoShutdown now s
   = (if onCountdown s
      then set_onCountdown false
             (set_turnOnScreen (screenStateBeforeCountdown s) s)
      else s))
  /\ (autoShutdownTime (config s) - countdownTime (config s)
        <= usub now (lastActiveTime s) / 1000 < autoShutdownTime (config s) ->
      handleAutoShutdown now s
      = handleShutdownCountdown now (usub now (lastActiveTime s)) s)
  /\ (autoShutdownTime (config s) <= usub now (lastActiveTime s) / 1000 ->
      handleAutoShutdown now s = set_halted true (emit [PowerOff] s)).
Proof.
  intros Hs. destruct (sane_thresholds _ Hs) as [ES EC].
  destruct Hs as [Hc Ha]. unfold INT_MAX in Ha.
  assert (Hi : 0 <= usub now (lastActiveTime s))
    by (unfold usub; apply to_ulong_range).
  pose proof (Z.div_mod (usub now (lastActiveTime s)) 1000) as DM.
  pose proof (Z.mod_pos_bound (usub now (lastActiveTime s)) 1000) as MB.
  repeat split; intros Hd.
  - apply handleAutoShutdown_active; rewrite ?ES, ?EC; lia.
  - apply handleAutoShutdown_countdown; rewrite ?ES, ?EC; lia.
  - unfold handleAutoShutdown. rewrite ES.
    assert (L : autoShutdownTime (config s) * 1000
                <= usub now (lastActiveTime s)) by lia.
    apply Z.leb_le in L. now rewrite L.
Qed.

Lemma idle_phases_witness :
  handleAutoShutdown 600000 (running default_config true)
  = set_halted true (emit [PowerOff] (running default_config true)).
Proof.
  refine (proj2 (proj2 (idle_phases 600000 (running default_config true) _)) _).
  - unfold sane, INT_MAX. simpl. lia.
  - vm_compute. discriminate.
Defined.

(** X12.  With a sane record and the prompt enabled, the value the
    countdown shows at an evaluation in the countdown window lies between
    1 and [countdownTime]. *)
Theorem countdown_value_bounds (now : Z) (s : State) :
  sane (config s) ->
  shutdownCountdownScreen (config s) = true ->
  autoShutdownTime (config s) - countdownTime (config s)
    <= usub now (lastActiveTime s) / 1000 < autoShutdownTime (config s) ->
  1 <= lastRemainingSeconds (handleAutoShutdown now s)
    <= countdownTime (config s).
Proof.
  intros Hs Hp Hw. destruct Hs as [Hc Ha].
  rewrite handleAutoShutdown_in_window by assumption.
  rewrite handleShutdownCountdown_remaining by exact Hp.
  unfold INT_MAX in Ha.
  rewrite remaining_exact;
    [lia
    |unfold usub; apply to_ulong_range
    |unfold is_int, INT_MIN, INT_MAX; lia
    |lia].
Qed.

Lemma countdown_value_bounds_witness :
  1 <= lastRemainingSeconds
         (handleAutoShutdown 590000 (running default_config true))
    <= 10.
Proof.
  refine (countdown_value_bounds 590000 (running default_config true) _
            eq_refl _).
  - unfold sane, INT_MAX. simpl. lia.
  - vm_compute. split; [discriminate|reflexivity].
Defined.

(** ** A shutdown time of zero *)

Lemma handleAutoShutdown_zero (now : Z) (s : State) :
  autoShutdownTime (config s) = 0 ->
  handleAutoShutdown now s = set_halted true (emit [PowerOff] s).
Proof.
  intros H0. unfold handleAutoShutdown, shutdown_threshold. rewrite H0.
  change (to_ulong (imul 0 1000)) with 0.
  assert (L : 0 <= usub now (lastActiveTime s))
    by (unfold usub; apply to_ulong_range).
  apply Z.leb_le in L. now rewrite L.
Qed.

(** X13.  A save request whose [autoShutdownTime] holds no number (or
    is missing) stores a shutdown time of 0, and on the record it leaves
    behind every pass of [loop] after the restart powers the device off
    at its idle-timer evaluation, before the web server is served. *)
Theorem save_without_shutdown_time (f : Form) (i : Inputs) (s : State) :
  numeric (arg f "autoShutdownTime") = false ->
  autoShutdownTime (config (loadConfig (boot (eeprom (handleSave f s))))) = 0
  /\ loop i (loadConfig (boot (eeprom (handleSave f s))))
     = set_halted true
         (emit [PowerOff]
            (before_idle_check i
               (loadConfig (boot (eeprom (handleSave f s)))))).
Proof.
  intros Hn.
  set (s' := loadConfig (boot (eeprom (handleSave f s)))).
  assert (Z0 : autoShutdownTime (config s') = 0).
  { unfold s'.
    destruct (loadConfig_keeps_image (boot (eeprom (handleSave f s))))
      as [C _].
    rewrite C. change (to_int (toInt (arg f "autoShutdownTime")) = 0).
    now rewrite (toInt_not_numeric _ Hn). }
  split; [exact Z0|].
  rewrite loop_unfold.
  destruct (before_idle_check_view i s') as (C & _).
  rewrite handleAutoShutdown_zero by (now rewrite C).
  reflexivity.
Qed.

Lemma save_without_shutdown_time_witness :
  halted
    (loop (idle_pass home_wifi 1)
       (loadConfig
          (boot (eeprom (handleSave [("ssid", "home")] (boot default_config))))))
  = true.
Proof.
  rewrite (proj2 (save_without_shutdown_time [("ssid", "home")]
                    (idle_pass home_wifi 1) (boot default_config) eq_refl)).
  reflexivity.
Defined.

End PhaseFacts.

(* ================================================================== *)
(** * page-turner.ino: what holds over any number of passes *)

Module RunFacts.

Import ArduinoFacts PageTurner PageTurnerFacts IdleTimerFacts.

(** ** What each handler keeps *)

Ltac keeps :=
  split_ifs; repeat split; try reflexivity; try assumption;
  try discriminate; intros; try assumption; try reflexivity.

Lemma handleScreenSwitch_keeps (w : WiFi) (battery now : Z) (s : State) :
  config (handleScreenSwitch w battery now s) = config s
  /\ eeprom (handleScreenSwitch w battery now s) = eeprom s
  /\ (delayToTurnOffScreen s = false ->
      delayToTurnOffScreen (handleScreenSwitch w battery now s) = false
      /\ turnOnScreen (handleScreenSwitch w battery now s) = turnOnScreen s).
Proof.
  unfold handleScreenSwitch, drawInfoScreen, displayText.
  destruct (delayToTurnOffScreen s) eqn:D; proj_simpl;
    [split_ifs; repeat split; discriminate|].
  destruct (turnOnScreen s) eqn:T; proj_simpl;
    [|repeat split; assumption].
  destruct (onCountdown s); proj_simpl; split_ifs; repeat split; assumption.
Qed.

Lemma handleNormalBtnEvent_keeps
  (st : wl_status) (btn : Button_Class) (now ca ha : Z) (s : State) :
  config (handleNormalBtnEvent st btn now ca ha s) = config s
  /\ eeprom (handleNormalBtnEvent st btn now ca ha s) = eeprom s
  /\ delayToTurnOffScreen (handleNormalBtnEvent st btn now ca ha s)
     = delayToTurnOffScreen s
  /\ turnOnScreen (handleNormalBtnEvent st btn now ca ha s) = turnOnScreen s.
Proof.
  unfold handleNormalBtnEvent.
  destruct (negb (is_connected st)); [repeat split|].
  destruct (wasClicked btn), (wasHold btn); proj_simpl;
    try (repeat split; reflexivity);
    match goal with
    | |- context [sendRequest ?a ?b ?c] =>
        destruct (sendRequest_emits a b c) as [es ->]
    end;
    destruct (beepOnPress (config s)); proj_simpl; repeat split.
Qed.

Lemma handlePWRBtnEvent_keeps (pinLow : bool) (now nowActive : Z) (s : State) :
  config (handlePWRBtnEvent pinLow now nowActive s) = config s
  /\ eeprom (handlePWRBtnEvent pinLow now nowActive s) = eeprom s
  /\ (delayToTurnOffScreen s = false ->
      delayToTurnOffScreen (handlePWRBtnEvent pinLow now nowActive s) = false).
Proof.
  unfold handlePWRBtnEvent, isPWRBtnClicked. keeps.
Qed.

Lemma handleAutoShutdown_keeps (now : Z) (s : State) :
  config (handleAutoShutdown now s) = config s
  /\ eeprom (handleAutoShutdown now s) = eeprom s
  /\ delayToTurnOffScreen (handleAutoShutdown now s) = delayToTurnOffScreen s.
Proof.
  unfold handleAutoShutdown, handleShutdownCountdown, displayText.
  destruct (onCountdown s); proj_simpl; split_ifs; repeat split.
Qed.

Lemma handleClient_keeps (r : option Request) (s : State) :
  delayToTurnOffScreen (handleClient r s) = delayToTurnOffScreen s
  /\ screenStateBeforeCountdown (handleClient r s)
     = screenStateBeforeCountdown s
  /\ (halted (handleClient r s) = false ->
      config (handleClient r s) = config s
      /\ eeprom (handleClient r s) = eeprom s).
Proof.
  unfold handleClient, handleRoot, handleSave, saveConfig.
  destruct r as [q|]; [|repeat split].
  split_ifs; repeat split; discriminate.
Qed.

Lemma handleClient_no_save (i : Inputs) (s : State) :
  no_save i = true ->
  config (handleClient (request i) s) = config s
  /\ eeprom (handleClient (request i) s) = eeprom s.
Proof.
  unfold no_save, handleClient, handleRoot.
  destruct (request i) as [q|]; [|split; reflexivity].
  intros H. apply negb_true_iff in H. rewrite H.
  destruct (String.eqb (uri q) "/"); split; reflexivity.
Qed.

Lemma before_idle_check_keeps (i : Inputs) (s : State) :
  config (before_idle_check i s) = config s
  /\ eeprom (before_idle_check i s) = eeprom s
  /\ (delayToTurnOffScreen s = false ->
      delayToTurnOffScreen (before_idle_check i s) = false).
Proof.
  unfold before_idle_check.
  set (s1 := handleScreenSwitch (wifi i) (batteryLevel i) (t_screen i) s).
  destruct (handleScreenSwitch_keeps (wifi i) (batteryLevel i) (t_screen i) s)
    as (C1 & E1 & D1). fold s1 in C1, E1, D1.
  set (s2 := handleNormalBtnEvent (status (wifi i)) (BtnA i) (t_btnA i)
               (aBtnClickAction (config s1)) (aBtnHoldAction (config s1)) s1).
  destruct (handleNormalBtnEvent_keeps (status (wifi i)) (BtnA i) (t_btnA i)
              (aBtnClickAction (config s1)) (aBtnHoldAction (config s1)) s1)
    as (C2 & E2 & D2 & _). fold s2 in C2, E2, D2.
  set (s3 := handleNormalBtnEvent (status (wifi i)) (BtnB i) (t_btnB i)
               (bBtnClickAction (config s2)) (bBtnHoldAction (config s2)) s2).
  destruct (handleNormalBtnEvent_keeps (status (wifi i)) (BtnB i) (t_btnB i)
              (bBtnClickAction (config s2)) (bBtnHoldAction (config s2)) s2)
    as (C3 & E3 & D3 & _). fold s3 in C3, E3, D3.
  destruct (handlePWRBtnEvent_keeps (pwrPinLow i) (t_pwr i) (t_pwrActive i) s3)
    as (C4 & E4 & D4).
  repeat split; try congruence.
  intros Hd. apply D4. rewrite D3, D2. now apply D1.
Qed.

Lemma loop_keeps (i : Inputs) (s : State) :
  (delayToTurnOffScreen s = false -> delayToTurnOffScreen (loop i s) = false)
  /\ (halted (loop i s) = false ->
      config (loop i s) = config s /\ eeprom (loop i s) = eeprom s)
  /\ (no_save i = true ->
      config (loop i s) = config s /\ eeprom (loop i s) = eeprom s).
Proof.
  rewrite loop_unfold.
  destruct (before_idle_check_keeps i s) as (C & E & D).
  destruct (handleAutoShutdown_keeps (t_shutdown i) (before_idle_check i s))
    as (C' & E' & D').
  destruct (handleClient_keeps (request i)
              (handleAutoShutdown (t_shutdown i) (before_idle_check i s)))
    as (D'' & _ & K).
  destruct (halted (handleAutoShutdown (t_shutdown i) (before_idle_check i s)))
    eqn:H;
    (split; [intros Hyp|split; intros Hyp; split]); try congruence;
    try (rewrite D'; now apply D);
    try (rewrite D'', D'; now apply D);
    try (destruct (K Hyp); congruence);
    destruct (handleClient_no_save i
                (handleAutoShutdown (t_shutdown i) (before_idle_check i s)) Hyp);
    congruence.
Qed.

Lemma run_halted (passes : list Inputs) (s : State) :
  halted s = true -> run passes s = s.
Proof. intros H. destruct passes; cbn [run]; [|rewrite H]; reflexivity. Qed.

(** ** The record and the storage *)

(** X14.  Only the save handler writes the record: over any number of
    passes none of which carries a request for [/save], the record in
    memory and the stored image stay what they were. *)
Theorem run_without_save_keeps_record (passes : list Inputs) (s : State) :
  forallb no_save passes = true ->
  config (run passes s) = config s /\ eeprom (run passes s) = eeprom s.
Proof.
  revert s. induction passes as [|i rest IH]; intros s H; [split; reflexivity|].
  cbn [forallb] in H. apply andb_true_iff in H. destruct H as [Hi Hr].
  cbn [run]. destruct (halted s); [split; reflexivity|].
  destruct (IH (loop i s) Hr) as [A B].
  destruct (loop_keeps i s) as (_ & _ & K). destruct (K Hi). split; congruence.
Qed.

Lemma run_without_save_keeps_record_witness :
  config (run [idle_pass home_wifi 1000; click_A_pass home_wifi 2000 2100]
            (running default_config true))
  = default_config.
Proof.
  exact (proj1 (run_without_save_keeps_record
                  [idle_pass home_wifi 1000; click_A_pass home_wifi 2000 2100]
                  (running default_config true) eq_refl)).
Defined.

(** ** The delayed screen-off, over a run *)

(** X15.  No pass of [loop] arms the delayed screen-off: once
    [delayToTurnOffScreen] is false it stays false over any run, so after
    a boot the delay switches the screen off at most once, and not at all
    when the record keeps the screen on. *)
Theorem delayed_screen_off_not_rearmed (passes : list Inputs) (s : State) :
  delayToTurnOffScreen s = false ->
  delayToTurnOffScreen (run passes s) = false.
Proof.
  revert s. induction passes as [|i rest IH]; intros s H; [exact H|].
  cbn [run]. destruct (halted s); [exact H|].
  apply IH. now apply (proj1 (loop_keeps i s)).
Qed.

Lemma delayed_screen_off_not_rearmed_witness :
  delayToTurnOffScreen
    (run [idle_pass home_wifi 6000; idle_pass home_wifi 7000]
       (loadConfig (boot default_config)))
  = false.
Proof.
  exact (delayed_screen_off_not_rearmed
           [idle_pass home_wifi 6000; idle_pass home_wifi 7000]
           (loadConfig (boot default_config)) eq_refl).
Defined.

(** ** The speaker *)

Ltac speaker_quiet :=
  split_ifs; rewrite ?filter_app; cbn [filter is_speaker];
  rewrite ?app_nil_r; reflexivity.

Lemma sendRequest_speaker (st : wl_status) (action : Z) (s : State) :
  filter is_speaker (trace (sendRequest st action s))
  = filter is_speaker (trace s).
Proof.
  destruct (sendRequest_emits st action s) as [es E].
  unfold sendRequest in *. destruct (negb (is_connected st)); [reflexivity|].
  destruct action as [|p|p]; [| |reflexivity].
  - proj_simpl. rewrite filter_app. cbn [filter is_speaker].
    now rewrite app_nil_r.
  - destruct p as [[p|p|]|[p|p|]|]; try reflexivity; proj_simpl;
      rewrite filter_app; cbn [filter is_speaker]; now rewrite app_nil_r.
Qed.

Lemma handleScreenSwitch_speaker (w : WiFi) (battery now : Z) (s : State) :
  filter is_speaker (trace (handleScreenSwitch w battery now s))
  = filter is_speaker (trace s).
Proof.
  unfold handleScreenSwitch, drawInfoScreen, displayText. speaker_quiet.
Qed.

Lemma handleNormalBtnEvent_speaker
  (st : wl_status) (btn : Button_Class) (now ca ha : Z) (s : State) :
  beepOnPress (config s) = false ->
  filter is_speaker (trace (handleNormalBtnEvent st btn now ca ha s))
  = filter is_speaker (trace s).
Proof.
  intros Hb. unfold handleNormalBtnEvent. rewrite Hb.
  destruct (negb (is_connected st)); [reflexivity|].
  destruct (wasClicked btn), (wasHold btn); proj_simpl;
    try reflexivity; now rewrite sendRequest_speaker.
Qed.

Lemma handlePWRBtnEvent_speaker
  (pinLow : bool) (now nowActive : Z) (s : State) :
  beepOnPress (config s) = false ->
  filter is_speaker (trace (handlePWRBtnEvent pinLow now nowActive s))
  = filter is_speaker (trace s).
Proof.
  intros Hb. unfold handlePWRBtnEvent, isPWRBtnClicked.
  split_ifs; try reflexivity; congruence.
Qed.

Lemma handleAutoShutdown_speaker (now : Z) (s : State) :
  shutdownCountdownBeep (config s) = false ->
  filter is_speaker (trace (handleAutoShutdown now s))
  = filter is_speaker (trace s).
Proof.
  intros Hb. unfold handleAutoShutdown, handleShutdownCountdown, displayText.
  destruct (onCountdown s); proj_simpl; rewrite Hb; speaker_quiet.
Qed.

Lemma handleClient_speaker (r : option Request) (s : State) :
  filter is_speaker (trace (handleClient r s)) = filter is_speaker (trace s).
Proof.
  unfold handleClient, handleRoot, handleSave, saveConfig.
  destruct r as [q|]; [|reflexivity]. speaker_quiet.
Qed.

Lemma loop_speaker (i : Inputs) (s : State) :
  beepOnPress (config s) = false ->
  shutdownCountdownBeep (config s) = false ->
  filter is_speaker (trace (loop i s)) = filter is_speaker (trace s).
Proof.
  intros Hb Hc. rewrite loop_unfold.
  assert (B : filter is_speaker (trace (before_idle_check i s))
              = filter is_speaker (trace s)).
  { unfold before_idle_check.
    set (s1 := handleScreenSwitch (wifi i) (batteryLevel i) (t_screen i) s).
    destruct (handleScreenSwitch_keeps (wifi i) (batteryLevel i)
                (t_screen i) s) as (C1 & _). fold s1 in C1.
    set (s2 := handleNormalBtnEvent (status (wifi i)) (BtnA i) (t_btnA i)
                 (aBtnClickAction (config s1)) (aBtnHoldAction (config s1)) s1).
    destruct (handleNormalBtnEvent_keeps (status (wifi i)) (BtnA i) (t_btnA i)
                (aBtnClickAction (config s1)) (aBtnHoldAction (config s1)) s1)
      as (C2 & _). fold s2 in C2.
    set (s3 := handleNormalBtnEvent (status (wifi i)) (BtnB i) (t_btnB i)
                 (bBtnClickAction (config s2)) (bBtnHoldAction (config s2)) s2).
    destruct (handleNormalBtnEvent_keeps (status (wifi i)) (BtnB i) (t_btnB i)
                (bBtnClickAction (config s2)) (bBtnHoldAction (config s2)) s2)
      as (C3 & _). fold s3 in C3.
    rewrite handlePWRBtnEvent_speaker by congruence.
    unfold s3. rewrite handleNormalBtnEvent_speaker by congruence.
    unfold s2. rewrite handleNormalBtnEvent_speaker by congruence.
    apply handleScreenSwitch_speaker. }
  destruct (before_idle_check_keeps i s) as (C & _).
  destruct (halted _); [|rewrite handleClient_speaker];
    rewrite handleAutoShutdown_speaker by congruence; exact B.
Qed.

(** X16.  With the press beep and the countdown beep both switched off
    the sketch never uses the speaker: over any run the calls on the
    speaker in the trace are those that were there before. *)
Theorem silent_record_never_beeps (passes : list Inputs) (s : State) :
  beepOnPress (config s) = false ->
  shutdownCountdownBeep (config s) = false ->
  filter is_speaker (trace (run passes s)) = filter is_speaker (trace s).
Proof.
  revert s. induction passes as [|i rest IH]; intros s Hb Hc; [reflexivity|].
  cbn [run]. destruct (halted s) eqn:Hs; [reflexivity|].
  destruct (halted (loop i s)) eqn:Hl.
  - rewrite run_halted by exact Hl. now apply loop_speaker.
  - destruct (loop_keeps i s) as (_ & K & _). destruct (K Hl) as [C _].
    rewrite IH by congruence. now apply loop_speaker.
Qed.

Lemma silent_record_never_beeps_witness :
  filter is_speaker
    (trace (run [click_A_pass home_wifi 1000 1100; idle_pass home_wifi 595000]
              (running config_silent true)))
  = [].
Proof.
  exact (silent_record_never_beeps
           [click_A_pass home_wifi 1000 1100; idle_pass home_wifi 595000]
           (running config_silent true) eq_refl eq_refl).
Defined.

(** ** Into the countdown and out of it *)

(** X17.  A countdown entered and left, over two passes: the first
    pass, evaluated in the countdown window with the prompt enabled,
    forces the screen on; the second, in which activity is registered,
    gives the screen flag back the value it had when the first pass
    reached its idle-timer evaluation. *)
Theorem countdown_restores_screen (i1 i2 : Inputs) (s : State) :
  onCountdown s = false ->
  shutdownCountdownScreen (config s) = true ->
  no_save i1 = true ->
  countdown_threshold (config s) <= idle_time i1 s ->
  idle_time i1 s < shutdown_threshold (config s) ->
  activity i2 (loop i1 s) = true ->
  pass_within i2 (countdown_threshold (config s)) ->
  pass_within i2 (shutdown_threshold (config s)) ->
  onCountdown (loop i1 s) = true
  /\ turnOnScreen (loop i1 s) = true
  /\ onCountdown (loop i2 (loop i1 s)) = false
  /\ turnOnScreen (loop i2 (loop i1 s)) = turnOnScreen (before_idle_check i1 s).
Proof.
  intros Ho Hp Hn Hc Hs Hact (CA & CB & CP) (SA & SB & SP).
  unfold idle_time in Hc, Hs.
  destruct (before_idle_check_view i1 s) as (C & O & _).
  destruct (loop_keeps i1 s) as (_ & _ & K). destruct (K Hn) as [C1 _].
  assert (F : onCountdown (loop i1 s) = true
              /\ turnOnScreen (loop i1 s) = true
              /\ screenStateBeforeCountdown (loop i1 s)
                 = turnOnScreen (before_idle_check i1 s)).
  { rewrite loop_unfold. rewrite <- C in Hp, Hc, Hs.
    rewrite (handleAutoShutdown_countdown _ _ Hs Hc).
    destruct (handleShutdownCountdown_flags (t_shutdown i1)
                (usub (t_shutdown i1)
                   (lastActiveTime (before_idle_check i1 s)))
                (before_idle_check i1 s) Hp) as (T & O' & _ & B).
    rewrite O, Ho in B.
    destruct (handleClient_view (request i1)
                (handleShutdownCountdown (t_shutdown i1)
                   (usub (t_shutdown i1)
                      (lastActiveTime (before_idle_check i1 s)))
                   (before_idle_check i1 s))) as (V1 & V2 & _).
    destruct (handleClient_keeps (request i1)
                (handleShutdownCountdown (t_shutdown i1)
                   (usub (t_shutdown i1)
                      (lastActiveTime (before_idle_check i1 s)))
                   (before_idle_check i1 s))) as (_ & V3 & _).
    destruct (halted _); [|rewrite V1, V2, V3]; repeat split; assumption. }
  destruct F as (F1 & F2 & F3). split; [exact F1|]. split; [exact F2|].
  rewrite <- F3.
  assert (L : onCountdown (loop i2 (loop i1 s)) = false
              /\ turnOnScreen (loop i2 (loop i1 s))
                 = screenStateBeforeCountdown (loop i1 s)
              /\ lastRemainingSeconds (loop i2 (loop i1 s)) = -1).
  { apply leaves_countdown_below_thresholds; try assumption;
      rewrite C1; unfold idle_time;
      destruct (before_idle_check_lastActiveTime i2 (loop i1 s) Hact)
        as [E|[E|E]]; rewrite E; assumption. }
  destruct L as (L1 & L2 & _). split; assumption.
Qed.

(** The screen is off when the countdown starts; button A ends the
    countdown and the screen is off again. *)
Lemma countdown_restores_screen_witness :
  turnOnScreen
    (loop (click_A_pass home_wifi 596000 596100)
       (loop (idle_pass home_wifi 595000) (running default_config false)))
  = false.
Proof.
  refine (proj2 (proj2 (proj2
            (countdown_restores_screen (idle_pass home_wifi 595000)
               (click_A_pass home_wifi 596000 596100)
               (running default_config false)
               eq_refl eq_refl eq_refl _ _ eq_refl _ _)))).
  - vm_compute. discriminate.
  - vm_compute. reflexivity.
  - repeat split; vm_compute; reflexivity.
  - repeat split; vm_compute; reflexivity.
Defined.

(** ** Start-up *)





End RunFacts.

(* ================================================================== *)
(** * The second sketch: further properties *)

Module Part000More.

Import ArduinoFacts Part000 Part000Facts.

Ltac proj_simpl0 :=
  cbn [deviceConfig eeprom screenEnabled isAPMode lastActivityTime
       lastBeepTime lastScreenUpdate lastRemainingSeconds lastSSID lastIP
       lastTarget lastPress halted trace set_deviceConfig set_eeprom
       set_screenEnabled set_lastActivityTime set_lastBeepTime
       set_lastScreenUpdate set_lastRemainingSeconds set_lastStatus
       set_lastPress set_halted emit negb andb orb fst snd] in *.

Ltac split_ifs0 :=
  repeat match goal with
         | |- context [if ?b then _ else _] => destruct b eqn:?; proj_simpl0
         end.

(** ** The record and its magic *)

(** X19.  After [loadConfig] the record in memory carries the magic and
    equals the stored image, whatever the storage held; a second boot
    reads the same record back. *)
Theorem loadConfig_valid (s : State) :
  magic (deviceConfig (loadConfig s)) = CONFIG_MAGIC
  /\ eeprom (loadConfig s) = deviceConfig (loadConfig s)
  /\ deviceConfig (loadConfig (boot (eeprom (loadConfig s))))
     = deviceConfig (loadConfig s).
Proof.
  destruct (Z.eq_dec (magic (eeprom s)) CONFIG_MAGIC) as [E|E].
  - destruct (loadConfig_good_magic s E) as [A B].
    destruct (loadConfig_good_magic (boot (eeprom (loadConfig s)))) as [C _];
      [cbn [boot eeprom]; congruence|].
    rewrite C. cbn [boot eeprom]. rewrite A, B. repeat split; assumption.
  - destruct (loadConfig_bad_magic s E) as (A & B & C).
    rewrite C, A, B. repeat split.
Qed.

Lemma store_form_saved (f : Form) (s : State) :
  deviceConfig (store_form f s)
  = {| magic := CONFIG_MAGIC;
       ssid := strncpy (arg f "ssid") 32;
       password := strncpy (arg f "pass") 64;
       targetIP := strncpy (arg f "ip") 16;
       targetPort := to_uint16 (toInt (arg f "port")) |}
  /\ eeprom (store_form f s) = deviceConfig (store_form f s).
Proof. split; reflexivity. Qed.

(** X20.  Both save handlers persist a record with a valid magic,
    whatever the magic in memory was, and restart: the next boot runs on
    exactly the record the form built. *)
Theorem save_then_boot (f : Form) (s : State) :
  deviceConfig (loadConfig (boot (eeprom (ap_config f s))))
  = deviceConfig (ap_config f s)
  /\ deviceConfig (loadConfig (boot (eeprom (sta_update f s))))
     = deviceConfig (sta_update f s)
  /\ magic (deviceConfig (ap_config f s)) = CONFIG_MAGIC
  /\ halted (ap_config f s) = true
  /\ halted (sta_update f s) = true
  /\ deviceConfig (sta_update f s) = deviceConfig (ap_config f s).
Proof.
  assert (G : forall t : State,
             magic (eeprom t) = CONFIG_MAGIC ->
             deviceConfig (loadConfig (boot (eeprom t))) = eeprom t).
  { intros t Ht.
    now destruct (loadConfig_good_magic (boot (eeprom t)) Ht). }
  repeat split; apply G; reflexivity.
Qed.

(** X21.  The port is kept in 16 bits: whatever [int] the form carries
    in decimal, the stored port is that number modulo 65536, so it always
    lies in 0..65535 and a port in that range is stored as it is. *)
Theorem store_form_port_wraps (v : Z) (f : Form) (s : State) :
  is_int v ->
  arg f "port" = String_of_int v ->
  targetPort (deviceConfig (store_form f s)) = v mod 65536
  /\ 0 <= targetPort (deviceConfig (store_form f s)) < 65536
  /\ (0 <= v < 65536 -> targetPort (deviceConfig (store_form f s)) = v).
Proof.
  intros Hv Ha.
  change (targetPort (deviceConfig (store_form f s)))
    with (to_uint16 (toInt (arg f "port"))).
  rewrite Ha, toInt_String_of_int by exact Hv. unfold to_uint16.
  split; [reflexivity|]. split; [apply Z.mod_pos_bound; lia|].
  intros Hr. now apply Z.mod_small.
Qed.

Lemma store_form_port_wraps_witness :
  targetPort (deviceConfig (store_form [("port", "70000")] first_boot)) = 4464.
Proof.
  refine (proj1 (store_form_port_wraps 70000 [("port", "70000")] first_boot
                   _ eq_refl)).
  unfold is_int, INT_MIN, INT_MAX. lia.
Defined.

(** ** The status screen *)

(** X22.  [drawStatusScreen] suppresses redundant drawing: after any
    call, a call without [forceUpdate] under the same network status
    changes nothing and draws nothing. *)
Theorem drawStatusScreen_again (w : WiFi) (force : bool) (s : State) :
  drawStatusScreen w false (drawStatusScreen w force s)
  = drawStatusScreen w force s.
Proof.
  unfold drawStatusScreen at 2.
  destruct (negb force && _ && _ && _) eqn:E.
  - unfold drawStatusScreen. cbn [negb andb].
    apply andb_true_iff in E. destruct E as [E E3].
    apply andb_true_iff in E. destruct E as [E E2].
    apply andb_true_iff in E. destruct E as [E0 E1].
    rewrite E0, E1, E2, E3. reflexivity.
  - unfold drawStatusScreen.
    destruct (is_connected (status w)); proj_simpl0;
      rewrite !String.eqb_refl, E; reflexivity.
Qed.

(** ** Button C *)

(** X23.  The debounce of button C: a reading is accepted when the pin
    is low more than 500 ms after the last accepted one (the first
    500 ms after boot count as such), and after an accepted reading,
    stored with clock value [t'], the next reading is accepted exactly
    when the pin is low and more than 500 ms have passed since [t'],
    whether or not the key was released in between; a rejected reading
    changes nothing. *)
Theorem button_C_debounce (t t' u u' : Z) (low : bool) (s : State) :
  500 < usub t (lastPress s) ->
  fst (isButtonCPressed true t t' s) = true
  /\ lastPress (snd (isButtonCPressed true t t' s)) = t'
  /\ fst (isButtonCPressed low u u' (snd (isButtonCPressed true t t' s)))
     = low && (500 <? usub u t')
  /\ (low && (500 <? usub u t') = false ->
      snd (isButtonCPressed low u u' (snd (isButtonCPressed true t t' s)))
      = snd (isButtonCPressed true t t' s)).
Proof.
  intros H. apply Z.ltb_lt in H.
  assert (E : isButtonCPressed true t t' s = (true, set_lastPress t' s))
    by (unfold isButtonCPressed; now rewrite H).
  rewrite E. proj_simpl0. unfold isButtonCPressed. proj_simpl0.
  destruct low; cbn [andb fst snd]; [|repeat split].
  destruct (500 <? usub u t'); cbn [fst snd]; repeat split.
  intros D. discriminate D.
Qed.

Lemma button_C_debounce_witness :
  fst (isButtonCPressed true 1900 1900
         (snd (isButtonCPressed true 1501 1501 first_boot)))
  = false.
Proof.
  refine (proj1 (proj2 (proj2
            (button_C_debounce 1501 1501 1900 1900 true first_boot _)))).
  vm_compute. reflexivity.
Defined.

(** ** The countdown *)

(** X24.  In the last ten seconds before the shutdown the countdown
    handler wakes the display at every tick, whether or not the screen is
    enabled; the value it keeps is the shutdown time minus the idle time
    in whole seconds, between 1 and 10; and it draws only when that value
    differs from the one kept before. *)
Theorem countdown_last_ten_seconds
  (currentTime inactiveTime : Z) (s : State) :
  COUNTDOWN_START <= inactiveTime < SHUTDOWN_TIMEOUT ->
  lastRemainingSeconds (handleShutdownCountdown currentTime inactiveTime s)
  = 600 - inactiveTime / 1000
  /\ 1 <= lastRemainingSeconds
            (handleShutdownCountdown currentTime inactiveTime s) <= 10
  /\ trace (handleShutdownCountdown currentTime inactiveTime s)
     = (trace s
        ++ DisplayWakeup
           :: (if 600 - inactiveTime / 1000 =? lastRemainingSeconds s then []
               else [DisplayClear; DisplaySetTextDatum middle_center;
                     DisplayDrawString
                       (String_of_int (600 - inactiveTime / 1000)
                        ++ " 秒后关机") 120 67;
                     DisplaySetTextDatum top_left]))%list.
Proof.
  intros Hw. pose proof (remaining_last_ten_seconds inactiveTime Hw) as R.
  change (SHUTDOWN_TIMEOUT / 1000) with 600 in R.
  assert (B : 590 <= inactiveTime / 1000 < 600).
  { unfold COUNTDOWN_START, SHUTDOWN_TIMEOUT in Hw.
    split; [apply Z.div_le_lower_bound; lia
           |apply Z.div_lt_upper_bound; lia]. }
  unfold handleShutdownCountdown.
  cbn [ENABLE_SCREEN_PROMPT ENABLE_COUNTDOWN_BEEP andb]. proj_simpl0.
  rewrite R.
  destruct (600 - inactiveTime / 1000 =? lastRemainingSeconds s) eqn:E;
    proj_simpl0.
  - apply Z.eqb_eq in E. repeat split; lia.
  - rewrite <- !app_assoc. repeat split; lia.
Qed.

Lemma countdown_last_ten_seconds_witness :
  lastRemainingSeconds (handleShutdownCountdown 595500 595500 first_boot) = 5.
Proof.
  refine (proj1 (countdown_last_ten_seconds 595500 595500 first_boot _)).
  vm_compute. split; [discriminate|reflexivity].
Defined.

(** ** One pass of [loop] *)

(** X25.  A pass with nothing to do does nothing: no key pressed, the
    screen disabled, no web request and an idle time below the countdown
    start leave the state, trace included, as it was. *)
Theorem quiet_pass (i : Inputs) (s : State) :
  BtnA_wasPressed i = false ->
  BtnB_wasPressed i = false ->
  pinCLow i = false ->
  request i = None ->
  screenEnabled s = false ->
  usub (t_loop i) (lastActivityTime s) < COUNTDOWN_START ->
  loop i s = s.
Proof.
  intros HA HB HC HR HS HI. unfold loop.
  assert (L1 : (SHUTDOWN_TIMEOUT <=? usub (t_loop i) (lastActivityTime s))
               = false)
    by (apply Z.leb_gt; unfold COUNTDOWN_START, SHUTDOWN_TIMEOUT in *; lia).
  assert (L2 : (COUNTDOWN_START <=? usub (t_loop i) (lastActivityTime s))
               = false) by (now apply Z.leb_gt).
  rewrite L1, L2, HA, HB, HR. cbn [orb].
  unfold isButtonCPressed. rewrite HC, HS. reflexivity.
Qed.

Lemma quiet_pass_witness : loop (idle_pass no_wifi 1000) first_boot = first_boot.
Proof.
  refine (quiet_pass (idle_pass no_wifi 1000) first_boot
            eq_refl eq_refl eq_refl eq_refl eq_refl _).
  vm_compute. reflexivity.
Defined.









(** ** The web server *)

Lemma handleClient_save_route (q : Request) (s : State) :
  is_save_route (isAPMode s) q = true ->
  handleClient (Some q) s
  = (if isAPMode s then ap_config (args q) s else sta_update (args q) s).
Proof.
  unfold is_save_route, handleClient.
  destruct (method q); [discriminate|].
  destruct (isAPMode s); now intros ->.
Qed.

(** X27.  In each mode one route saves, [POST /config] on the access
    point and [POST /update] on the home network: a request on it stores
    the record the form builds and restarts; any other request, the
    other mode's save route included, leaves the record, the storage and
    the running device as they are. *)
Theorem handleClient_routes (r : option Request) (s : State) :
  (saves (isAPMode s) r = false ->
   deviceConfig (handleClient r s) = deviceConfig s
   /\ eeprom (handleClient r s) = eeprom s
   /\ halted (handleClient r s) = halted s)
  /\ (forall q : Request,
        r = Some q ->
        is_save_route (isAPMode s) q = true ->
        deviceConfig (handleClient r s) = deviceConfig (store_form (args q) s)
        /\ eeprom (handleClient r s) = deviceConfig (store_form (args q) s)
        /\ halted (handleClient r s) = true).
Proof.
  split.
  - destruct r as [q|]; [|repeat split].
    unfold saves, is_save_route, handleClient, ap_root, sta_root, sta_config.
    destruct (method q), (isAPMode s); intros H; try rewrite H;
      split_ifs0; repeat split; discriminate.
  - intros q -> H. rewrite (handleClient_save_route q s H).
    destruct (isAPMode s); repeat split.
Qed.

Lemma handleClient_routes_witness :
  deviceConfig
    (handleClient (Some (mkRequest HTTP_POST "/config" [("port", "1")]))
       first_boot)
  = deviceConfig first_boot.
Proof.
  exact (proj1 (proj1 (handleClient_routes
                         (Some (mkRequest HTTP_POST "/config" [("port", "1")]))
                         first_boot) eq_refl)).
Defined.

(** ** Start-up *)

Lemma paced_weaken0 (polls : list (wl_status * Z)) (lo lo' : Z) :
  lo <= lo' -> paced lo' polls -> paced lo polls.
Proof.
  destruct polls as [|[st t] rest]; cbn [paced]; [trivial|].
  intros H [B P]. split; [lia|exact P].
Qed.

Lemma wait_connected_bound0 (start : Z) :
  0 <= start ->
  forall (polls : list (wl_status * Z)) (k : nat),
    (k <= 20)%nat ->
    paced (start + 500 * Z.of_nat k) polls ->
    (21 - k <= List.length polls)%nat ->
    exists n : nat,
      wait_connected start polls = Some n /\ (n + k <= 20)%nat.
Proof.
  intros H0 polls.
  induction polls as [|[st t] rest IH]; intros k Hk Hp Hl.
  - cbn [List.length] in Hl. lia.
  - cbn [paced] in Hp. destruct Hp as [Hb Hp].
    cbn [wait_connected].
    destruct (negb (is_connected st) && (usub t start <? 10000)) eqn:E;
      [|exists O; split; [reflexivity|lia]].
    apply andb_true_iff in E. destruct E as [_ E].
    apply Z.ltb_lt in E. unfold usub in E.
    rewrite to_ulong_id in E by (unfold is_ulong; lia).
    assert (Hk' : (S k <= 20)%nat) by lia.
    destruct (IH (S k) Hk') as (n & En & Hn).
    + apply (paced_weaken0 rest _ (t + 500)); [lia|exact Hp].
    + cbn [List.length] in Hl. lia.
    + rewrite En. exists (S n). split; [reflexivity|lia].
Qed.

Lemma drawStatusScreen_keeps (w : WiFi) (force : bool) (s : State) :
  deviceConfig (drawStatusScreen w force s) = deviceConfig s
  /\ eeprom (drawStatusScreen w force s) = eeprom s
  /\ isAPMode (drawStatusScreen w force s) = isAPMode s
  /\ screenEnabled (drawStatusScreen w force s) = screenEnabled s
  /\ halted (drawStatusScreen w force s) = halted s.
Proof. unfold drawStatusScreen. split_ifs0; repeat split. Qed.

Lemma existsb_repeat_delay (q : Request) (n : nat) :
  existsb (registers q) (repeat (delay_ms 500) n) = false.
Proof. induction n as [|k IH]; [reflexivity|exact IH]. Qed.

Lemma emit_inj (es es' : list Event) (s : State) :
  emit es s = emit es' s -> es = es'.
Proof.
  intros H. apply (f_equal trace) in H. cbn [trace emit] in H.
  now apply app_inv_head in H.
Qed.

(** In either mode, a request is answered "not found" exactly when its
    method and path are not among the mode's routes. *)
Lemma handleClient_not_found (q : Request) (s : State) :
  handleClient (Some q) s = not_found q s
  <-> (if isAPMode s
       then match method q with
            | HTTP_GET => String.eqb (uri q) "/"
            | HTTP_POST => String.eqb (uri q) "/config"
            end
       else match method q with
            | HTTP_GET => String.eqb (uri q) "/" || String.eqb (uri q) "/config"
            | HTTP_POST => String.eqb (uri q) "/update"
            end) = false.
Proof.
  assert (T : forall (f : Form) (b : string),
             set_halted true
               (emit [ServerSend 200 "text/plain" b; Delay 1000; Restart]
                  (store_form f s)) <> not_found q s).
  { intros f b H. apply (f_equal trace) in H.
    unfold not_found, store_form, saveConfig in H. proj_simpl0.
    apply app_inv_head in H. discriminate H. }
  unfold handleClient. fold (not_found q s).
  unfold ap_root, ap_config, sta_root, sta_config, sta_update.
  destruct (isAPMode s), (method q);
    repeat match goal with
           | |- context [String.eqb (uri q) ?u] =>
               destruct (String.eqb (uri q) u)
           end;
    cbn [orb]; split; intros H; try reflexivity; try discriminate H;
    try (exfalso; apply T in H; exact H);
    exfalso; unfold not_found in H; apply emit_inj in H; discriminate H.
Qed.

(** X28.  [setup] of the second sketch comes to an end when the clock
    readings of the waiting loop respect its [delay(500)]: the loop runs
    the delay at most 20 times.  The device is in access-point mode
    exactly when the status read after the loop is not connected; the
    record carries the magic and equals the stored image; the display is
    put to sleep after the status was shown; and the web server answers
    "not found" exactly to the requests whose method and path [setup] did
    not register. *)
Theorem second_setup_completes
  (image : Config) (start : Z) (polls : list (wl_status * Z))
  (final : wl_status) (mdns : bool) (softAPIP : string) (w : WiFi) (now : Z) :
  0 <= start ->
  paced start polls ->
  (21 <= List.length polls)%nat ->
  exists (n : nat) (s : State) (calls : list SetupCall),
    (n <= 20)%nat
    /\ setup image start polls final mdns softAPIP w now = Some (s, calls)
    /\ List.length (filter is_wait calls) = n
    /\ isAPMode s = negb (is_connected final)
    /\ magic (deviceConfig s) = CONFIG_MAGIC
    /\ eeprom s = deviceConfig s
    /\ lastActivityTime s = now
    /\ screenEnabled s = false
    /\ halted s = false
    /\ (exists pre : list Event,
          trace s = (pre ++ [DisplayClear; DisplaySleep])%list)
    /\ forall q : Request,
         handleClient (Some q) s = not_found q s
         <-> is_registered q calls = false.
Proof.
  intros H0 Hp Hl.
  destruct (wait_connected_bound0 start H0 polls 0) as (n & En & Hn);
    [lia|now rewrite Z.mul_0_r, Z.add_0_r|lia|].
  destruct (loadConfig_valid (boot image)) as (M & E & _).
  assert (B : screenEnabled (loadConfig (boot image)) = false
              /\ halted (loadConfig (boot image)) = false
              /\ isAPMode (loadConfig (boot image)) = false).
  { unfold loadConfig, saveConfig. split_ifs0; repeat split. }
  destruct B as (BS & BH & BA).
  set (s0 := loadConfig (boot image)) in *.
  assert (R : forall k : nat,
             List.length (filter is_wait (repeat (delay_ms 500) k)) = k)
    by (induction k as [|k IH]; cbn; congruence).
  exists n. unfold setup, connectWiFi. fold s0. rewrite En.
  destruct (is_connected final) eqn:Hf; cbn [negb].
  - (* connected: the home network *)
    match goal with
    | |- context [drawStatusScreen w true ?t] =>
        destruct (drawStatusScreen_keeps w true t) as (D1 & D2 & D3 & D4 & D5);
        set (s3 := drawStatusScreen w true t) in *
    end.
    proj_simpl0. rewrite BS in D4. rewrite D4. cbn [negb].
    eexists. eexists. split; [lia|]. split; [reflexivity|].
    proj_simpl0. rewrite D1, D2, D3, D5.
    split.
    { cbn [app initDisplay filter is_wait Z.eqb Pos.eqb List.length].
      rewrite !filter_app, !length_app, R.
      destruct mdns; cbn; lia. }
    do 6 (split; [first [assumption|reflexivity|congruence]|]).
    split; [now exists (trace s3)|].
    intros q.
    match goal with
    | |- _ <-> is_registered q ?c = false =>
        assert (IR : is_registered q c
                     = match method q with
                       | HTTP_GET =>
                           String.eqb (uri q) "/"
                           || String.eqb (uri q) "/config"
                       | HTTP_POST => String.eqb (uri q) "/update"
                       end)
    end.
    { unfold is_registered.
      cbn [app initDisplay existsb registers orb].
      rewrite !existsb_app, existsb_repeat_delay.
      destruct mdns; cbn [negb app existsb registers orb];
        destruct (method q); cbn [method_eqb andb orb];
        rewrite ?orb_false_r; reflexivity. }
    rewrite IR.
    split; intros H;
      [apply handleClient_not_found in H|apply handleClient_not_found];
      proj_simpl0; rewrite D3, BA in *; exact H.
  - (* not connected: the access point *)
    unfold startAPMode.
    match goal with
    | |- context [drawStatusScreen w true ?t] =>
        destruct (drawStatusScreen_keeps w true t) as (D1 & D2 & D3 & D4 & D5);
        set (s3 := drawStatusScreen w true t) in *
    end.
    cbn [set_isAPMode emit screenEnabled deviceConfig eeprom isAPMode halted]
      in D1, D2, D3, D4, D5.
    rewrite BS in D4. rewrite D4. cbn [negb].
    eexists. eexists. split; [lia|]. split; [reflexivity|].
    proj_simpl0. rewrite D1, D2, D3, D5.
    split.
    { cbn [app initDisplay filter is_wait Z.eqb Pos.eqb List.length].
      rewrite !filter_app, !length_app, R. cbn. lia. }
    do 6 (split; [first [assumption|reflexivity|congruence]|]).
    split; [now exists (trace s3)|].
    intros q.
    match goal with
    | |- _ <-> is_registered q ?c = false =>
        assert (IR : is_registered q c
                     = match method q with
                       | HTTP_GET => String.eqb (uri q) "/"
                       | HTTP_POST => String.eqb (uri q) "/config"
                       end)
    end.
    { unfold is_registered.
      cbn [app initDisplay existsb registers orb].
      rewrite !existsb_app, existsb_repeat_delay.
      cbn [negb app existsb registers orb];
        destruct (method q); cbn [method_eqb andb orb];
        rewrite ?orb_false_r; reflexivity. }
    rewrite IR.
    split; intros H;
      [apply handleClient_not_found in H|apply handleClient_not_found];
      proj_simpl0; rewrite D3 in *; exact H.
Qed.

Lemma second_setup_completes_witness :
  exists (n : nat) (s : State) (calls : list SetupCall),
    (n <= 20)%nat
    /\ setup erased_image 100 (never_connected 21 100) WL_DISCONNECTED false
         "192.168.4.1" no_wifi 13300 = Some (s, calls)
    /\ List.length (filter is_wait calls) = n
    /\ isAPMode s = negb (is_connected WL_DISCONNECTED)
    /\ magic (deviceConfig s) = CONFIG_MAGIC
    /\ eeprom s = deviceConfig s
    /\ lastActivityTime s = 13300
    /\ screenEnabled s = false
    /\ halted s = false
    /\ (exists pre : list Event,
          trace s = (pre ++ [DisplayClear; DisplaySleep])%list)
    /\ forall q : Request,
         handleClient (Some q) s = not_found q s
         <-> is_registered q calls = false.
Proof.
  refine (second_setup_completes erased_image 100 (never_connected 21 100)
            WL_DISCONNECTED false "192.168.4.1" no_wifi 13300 _ _ _).
  - lia.
  - cbn. lia.
  - cbn. lia.
Defined.

End Part000More.
